(** * go-rauc: the RAUC D-Bus client bindings

    A shallow embedding of the [rauc] package: the current binding
    (module path github.com/holoplot/go-rauc, godbus v5, [InstallBundle])
    and the earlier revision kept in [installer.go] ([Install]).

    The bus, the daemon and the godbus library are the environment.  They
    are modelled as records of observable behaviour: what a method call
    replies, what a property read yields at a given moment, what the n-th
    receive on the signal channel observes. *)

From Stdlib Require Import ZArith String List Lia DecimalString.
From stdpp Require Import base option gmap strings.
Import ListNotations.

Local Open Scope string_scope.

(** ** Go errors

    A Go [error] is observed through its [Error()] message only. *)

Record error := mkError { Error : string }.

(** [errors.New(text)] *)
Definition errors_New (text : string) : error := mkError text.

(** [fmt.Errorf(prefix + "%v", err)]: every format string of the package
    is a literal prefix followed by one [%v] verb. *)
Definition fmt_Errorf (prefix : string) (err : error) : error :=
  mkError (prefix +:+ Error err).

(** ** The godbus library *)

Module dbus.

(** Values the library hands over in message bodies and property variants,
    as the Go values they arrive as: a D-Bus STRUCT and a D-Bus ARRAY are
    both a slice, an [a{sv}] dictionary is a [map[string]dbus.Variant], and
    [map[string]interface{}] is what the package passes as call options.
    A [Variant] is observed through [Value()] and [String()]; the text that
    [String()] renders is the library's business and is carried as it is
    ([rendered], further down, says what it is for a string). *)
#[local] Set Warnings "-register-all".
Inductive Value :=
| VInt32 (n : Z)
| VBool (b : bool)
| VString (s : string)
| VSlice (elems : list Value)
| VMapInterface (m : gmap string Value)
| VMapVariant (m : gmap string Variant)
with Variant :=
| mkVariant (value : Value) (text : string).
#[local] Set Warnings "+register-all".

Definition Variant_Value (v : Variant) : Value :=
  match v with mkVariant value _ => value end.

Definition Variant_String (v : Variant) : string :=
  match v with mkVariant _ text => text end.

(** The zero [Variant{}] that accompanies an error. *)
Definition Variant_zero : Variant := mkVariant (VSlice []) "".

(** [dbus.Signal] *)
Record Signal := mkSignal {
  Sender : string;
  Path : string;
  Name : string;
  Body : list Value
}.

(** [*dbus.Call], reduced to the two fields the package reads. *)
Record Call := mkCall {
  Err : option error;
  CallBody : list Value
}.

(** Options of [AddMatchSignal]. *)
Inductive MatchOption :=
| WithMatchInterface (iface : string)
| WithMatchMember (member : string)
| WithMatchObjectPath (path : string).

(** *** [dbus.Store]

    [Store(src, dest...)] of godbus v5.1.0, modelled once per destination
    type the package uses and named by that type.  It fails with a length
    mismatch unless [src] has one element per destination, and with a
    type mismatch when an element does not fit its destination.  A basic
    value goes into a basic destination when Go can convert it: of the
    values modelled that is an int32 into a string, as the text of that
    code point.  A destination is written only when the whole store
    succeeds: the package never reads one after a failure it has seen.

    Two things the model does not track.  The element type of a slice:
    a slice is taken as a struct where a struct is wanted and as an array
    where a slice is wanted, and messages name it [[]interface {}].  A
    [map[string]interface{}], which the decoder never builds, is refused
    where a [map[string]dbus.Variant] is wanted. *)

(** Go's name of the dynamic type of a value. *)
Definition type_name (v : Value) : string :=
  match v with
  | VInt32 _ => "int32"
  | VBool _ => "bool"
  | VString _ => "string"
  | VSlice _ => "[]interface {}"
  | VMapInterface _ => "map[string]interface {}"
  | VMapVariant _ => "map[string]dbus.Variant"
  end.

(** [%d] of a count. *)
Definition decimal (n : nat) : string :=
  NilZero.string_of_uint (Nat.to_uint n).

Definition length_mismatch : error := errors_New "dbus.Store: length mismatch".

(** The error for a value that does not go into a destination of the type
    named [dest]. *)
Definition type_mismatch (src : Value) (dest : string) : error :=
  errors_New
    ("dbus.Store: type mismatch: " +:+
     match src with
     | VSlice _ =>
         "slice: cannot store a value of " +:+ type_name src
         +:+ " into " +:+ dest
     | VMapInterface _ | VMapVariant _ =>
         "map: cannot store a value of " +:+ type_name src
         +:+ " into " +:+ dest
     | _ => "cannot convert " +:+ type_name src +:+ " to " +:+ dest
     end).

(** The error for a slice of [need] elements and a struct destination
    with [have] exported fields. *)
Definition field_count_mismatch (need have : nat) : error :=
  errors_New
    ("dbus.Store: type mismatch: destination struct does not have "
     +:+ "enough fields need: " +:+ decimal need
     +:+ " have: " +:+ decimal have).

Definition byte (n : Z) : Ascii.ascii := Ascii.ascii_of_N (Z.to_N n).

(** Go's [string(rune)]: the UTF-8 encoding of the code point [n], and
    that of U+FFFD when [n] is no code point. *)
Definition string_of_rune (n : Z) : string :=
  let replacement :=
    String (byte 239) (String (byte 191) (String (byte 189) "")) in
  if (n <? 0)%Z then replacement
  else if (n <? 128)%Z then String (byte n) ""
  else if (n <? 2048)%Z then
    String (byte (Z.lor 192 (Z.shiftr n 6)))
      (String (byte (Z.lor 128 (Z.land n 63))) "")
  else if (55296 <=? n)%Z && (n <=? 57343)%Z then replacement
  else if (n <? 65536)%Z then
    String (byte (Z.lor 224 (Z.shiftr n 12)))
      (String (byte (Z.lor 128 (Z.land (Z.shiftr n 6) 63)))
         (String (byte (Z.lor 128 (Z.land n 63))) ""))
  else if (n <=? 1114111)%Z then
    String (byte (Z.lor 240 (Z.shiftr n 18)))
      (String (byte (Z.lor 128 (Z.land (Z.shiftr n 12) 63)))
         (String (byte (Z.lor 128 (Z.land (Z.shiftr n 6) 63)))
            (String (byte (Z.lor 128 (Z.land n 63))) "")))
  else replacement.

Definition store_int32 (src : Value) : Z + error :=
  match src with
  | VInt32 n => inl n
  | _ => inr (type_mismatch src "int32")
  end.

Definition store_string (src : Value) : string + error :=
  match src with
  | VString s => inl s
  | VInt32 n => inl (string_of_rune n)
  | _ => inr (type_mismatch src "string")
  end.

Definition store_map_variant (src : Value) : gmap string Variant + error :=
  match src with
  | VMapVariant m => inl m
  | VMapInterface _ =>
      inr (errors_New
             ("dbus.Store: type mismatch: map: cannot convert a value of "
              +:+ type_name src +:+ " into map[string]dbus.Variant"))
  | _ => inr (type_mismatch src "map[string]dbus.Variant")
  end.

(** A struct destination of the type named [dest] takes a slice with one
    element per exported field, in declaration order; unexported fields
    are passed over. *)
Definition store_struct3 {A B C R : Type} (dest : string)
    (fa : Value -> A + error) (fb : Value -> B + error)
    (fc : Value -> C + error) (build : A -> B -> C -> R)
    (src : Value) : R + error :=
  match src with
  | VSlice [a; b; c] =>
      match fa a, fb b, fc c with
      | inl x, inl y, inl z => inl (build x y z)
      | inr e, _, _ => inr e
      | _, inr e, _ => inr e
      | _, _, inr e => inr e
      end
  | VSlice elems => inr (field_count_mismatch (length elems) 3)
  | _ => inr (type_mismatch src dest)
  end.

Definition store_struct2 {A B R : Type} (dest : string)
    (fa : Value -> A + error) (fb : Value -> B + error)
    (build : A -> B -> R) (src : Value) : R + error :=
  match src with
  | VSlice [a; b] =>
      match fa a, fb b with
      | inl x, inl y => inl (build x y)
      | inr e, _ => inr e
      | _, inr e => inr e
      end
  | VSlice elems => inr (field_count_mismatch (length elems) 2)
  | _ => inr (type_mismatch src dest)
  end.

(** A struct none of whose fields is exported offers no destination at
    all: only the empty slice fits, and nothing is written. *)
Definition store_struct0 (dest : string) (src : Value) : unit + error :=
  match src with
  | VSlice [] => inl tt
  | VSlice elems => inr (field_count_mismatch (length elems) 0)
  | _ => inr (type_mismatch src dest)
  end.

(** A slice destination takes a slice and stores element by element. *)
Fixpoint store_elems {R : Type} (f : Value -> R + error)
    (elems : list Value) : list R + error :=
  match elems with
  | [] => inl []
  | x :: rest =>
      match f x with
      | inr e => inr e
      | inl r =>
          match store_elems f rest with
          | inr e => inr e
          | inl rs => inl (r :: rs)
          end
      end
  end.

Definition store_slice {R : Type} (dest : string) (f : Value -> R + error)
    (src : Value) : list R + error :=
  match src with
  | VSlice elems => store_elems f elems
  | _ => inr (type_mismatch src dest)
  end.

(** [Store(src, &dest)] with a single destination whose current content
    is [dest]: the new content and the error. *)
Definition Store1 {R : Type} (f : Value -> R + error)
    (src : list Value) (dest : R) : R * option error :=
  match src with
  | [v] =>
      match f v with
      | inl r => (r, None)
      | inr e => (dest, Some e)
      end
  | _ => (dest, Some length_mismatch)
  end.

(** [Store(src, &a, &b)] with two string destinations. *)
Definition Store2_string (src : list Value) (a b : string)
    : string * string * option error :=
  match src with
  | [x; y] =>
      match store_string x, store_string y with
      | inl s, inl t => (s, t, None)
      | inr e, _ => (a, b, Some e)
      | _, inr e => (a, b, Some e)
      end
  | _ => (a, b, Some length_mismatch)
  end.

(** ** The environment: bus, daemon and signal channel *)

(** What one receive on a channel of [*dbus.Signal] observes: a signal
    ([ok] true), the closed channel ([ok] false), or nothing at all, in
    which case the receiving goroutine stays parked. *)
Inductive Receive :=
| Received (signal : Signal)
| Closed
| Parked.

(** [dbus.BusObject] is an interface; an object is the behaviour of its
    methods.  A property read depends on the moment it is made, counted in
    receives completed on the signal channel. *)
Record BusObject := mkBusObject {
  BusObject_Call : string -> list Value -> Call;
  BusObject_GetProperty : nat -> string -> Variant * option error;
  BusObject_AddMatchSignal : string -> string -> list MatchOption -> Call;
  BusObject_Path : string
}.

(** [*dbus.Conn]: [Conn_Signal k] is what the k-th receive observes on a
    channel registered with [Signal]. *)
Record Conn := mkConn {
  Conn_Object : string -> string -> BusObject;
  Conn_AddMatchSignal : list MatchOption -> option error;
  Conn_Signal : nat -> Receive
}.

End dbus.

(** ** Package rauc, current revision (godbus v5) *)

Import dbus.

(** How a call of a function that may block ends, seen after a bounded
    number of loop iterations: it has returned, it is parked for good on a
    receive that nothing will ever complete, or it is still looping.
    [receives] counts the receive operations started on the channel. *)
Inductive Outcome :=
| Returned (err : option error) (receives : nat)
| Blocked (receives : nat)
| Running.

(** [Installer] *)
Record Installer := mkInstaller {
  conn : Conn;
  object : BusObject
}.

Definition dbusInterface : string := "de.pengutronix.rauc".

(** [SlotStatus] *)
Record SlotStatus := mkSlotStatus {
  SlotName : string;
  Status : gmap string Variant
}.

(** [InstallerNew], given what [dbus.SystemBus()] returns.  The result of
    [AddMatchSignal] is computed and dropped, as in the source. *)
Definition InstallerNew (SystemBus : Conn + error)
    : option Installer * option error :=
  match SystemBus with
  | inr err => (None, Some err)
  | inl c =>
      let obj := Conn_Object c dbusInterface "/" in
      let _ := Conn_AddMatchSignal c
                 [WithMatchInterface (dbusInterface +:+ "." +:+ "Installer");
                  WithMatchMember "Completed";
                  WithMatchObjectPath (BusObject_Path obj)] in
      (Some (mkInstaller c obj), None)
  end.

Definition interfaceForMember (method : string) : string :=
  dbusInterface +:+ "." +:+ "Installer" +:+ "." +:+ method.

(** [InstallBundleOptions] *)
Record InstallBundleOptions := mkInstallBundleOptions {
  IgnoreIncompatible : bool
}.

(** [GetOperation], read at moment [now]. *)
Definition GetOperation (p : Installer) (now : nat) : string * option error :=
  let '(v, err) :=
    BusObject_GetProperty (object p) now (interfaceForMember "Operation") in
  match err with
  | Some err => ("", Some (fmt_Errorf "RAUC: GetOperation(): " err))
  | None => (Variant_String v, None)
  end.

(** [GetLastError] *)
Definition GetLastError (p : Installer) (now : nat) : string * option error :=
  let '(v, err) :=
    BusObject_GetProperty (object p) now (interfaceForMember "LastError") in
  match err with
  | Some err => ("", Some (fmt_Errorf "RAUC: GetLastError(): " err))
  | None => (Variant_String v, None)
  end.

(** [GetCompatible] *)
Definition GetCompatible (p : Installer) (now : nat) : string * option error :=
  let '(v, err) :=
    BusObject_GetProperty (object p) now (interfaceForMember "Compatible") in
  match err with
  | Some err => ("", Some (fmt_Errorf "RAUC: GetProperty(Compatible): " err))
  | None => (Variant_String v, None)
  end.

(** [GetVariant] *)
Definition GetVariant (p : Installer) (now : nat) : string * option error :=
  let '(v, err) :=
    BusObject_GetProperty (object p) now (interfaceForMember "Variant") in
  match err with
  | Some err => ("", Some (fmt_Errorf "RAUC: GetProperty(Variant): " err))
  | None => (Variant_String v, None)
  end.

(** [GetBootSlot] *)
Definition GetBootSlot (p : Installer) (now : nat) : string * option error :=
  let '(v, err) :=
    BusObject_GetProperty (object p) now (interfaceForMember "BootSlot") in
  match err with
  | Some err => ("", Some (fmt_Errorf "RAUC: GetProperty(BootSlot): " err))
  | None => (Variant_String v, None)
  end.

(** The [for] loop of [InstallBundle] (and, line for line, of [Install] in
    installer.go), started when [n] receives have completed and run for at
    most [iterations] iterations. *)
Fixpoint awaitCompleted (p : Installer) (doneChannel : nat -> Receive)
    (iterations n : nat) : Outcome :=
  match iterations with
  | O => Running
  | S rest =>
      match doneChannel n with
      | Parked => Blocked (S n)
      | Closed =>
          Returned (Some (errors_New "RAUC: Cannot read from channel")) (S n)
      | Received signal =>
          if String.eqb (Name signal) (interfaceForMember "Completed") then
            let '(code, err) := Store1 store_int32 (Body signal) 0%Z in
            match err with
            | Some err => Returned (Some err) (S n)
            | None =>
                if negb (code =? 0)%Z then
                  let '(errorString, err) := GetLastError p (S n) in
                  match err with
                  | Some err => Returned (Some err) (S n)
                  | None => Returned (Some (errors_New errorString)) (S n)
                  end
                else Returned None (S n)
            end
          else awaitCompleted p doneChannel rest (S n)
      end
  end.

(** [InstallBundle] *)
Definition InstallBundle (p : Installer) (filename : string)
    (options : InstallBundleOptions) (iterations : nat) : Outcome :=
  let doneChannel := Conn_Signal (conn p) in
  let args : gmap string Value :=
    {[ "ignore-compatible" := VBool (IgnoreIncompatible options) ]} in
  let err :=
    Err (BusObject_Call (object p) (interfaceForMember "InstallBundle")
           [VString filename; VMapInterface args]) in
  match err with
  | Some err => Returned (Some (fmt_Errorf "RAUC: Install(): " err)) 0
  | None => awaitCompleted p doneChannel iterations 0
  end.

(** [Store] of a [dbus.Call]: the call's own error first, then [dbus.Store] on
    the reply body. *)
Definition Call_Store {D : Type} (c : Call)
    (Store : list Value -> D -> D * option error) (dest : D)
    : D * option error :=
  match Err c with
  | Some err => (dest, Some err)
  | None => Store (CallBody c) dest
  end.

(** [Info] *)
Definition Info (p : Installer) (filename : string)
    : string * string * option error :=
  let '(compatible, version, err) :=
    Call_Store
      (BusObject_Call (object p) (interfaceForMember "Info") [VString filename])
      (fun src '(a, b) => Store2_string src a b) ("", "") in
  match err with
  | Some err => ("", "", Some (fmt_Errorf "RAUC: Info(): " err))
  | None => (compatible, version, None)
  end.

(** [Mark] *)
Definition Mark (p : Installer) (state slotIdentifier : string)
    : string * string * option error :=
  let '(slotName, message, err) :=
    Call_Store
      (BusObject_Call (object p) (interfaceForMember "Mark")
         [VString state; VString slotIdentifier])
      (fun src '(a, b) => Store2_string src a b) ("", "") in
  match err with
  | Some err => ("", "", Some (fmt_Errorf "RAUC: Mark(): " err))
  | None => (slotName, message, None)
  end.

(** The destination [*[]SlotStatus]: a slice of two-field structs. *)
Definition store_SlotStatus : Value -> SlotStatus + error :=
  store_struct2 "rauc.SlotStatus" store_string store_map_variant mkSlotStatus.

(** [GetSlotStatus] *)
Definition GetSlotStatus (p : Installer) : list SlotStatus * option error :=
  let '(status, err) :=
    Call_Store
      (BusObject_Call (object p) (interfaceForMember "GetSlotStatus") [])
      (Store1 (store_slice "[]rauc.SlotStatus" store_SlotStatus)) [] in
  match err with
  | Some err => ([], Some (fmt_Errorf "RAUC: GetSlotStatus(): " err))
  | None => (status, None)
  end.

(** [progressResponse], local to [GetProgress]; all fields exported. *)
Record progressResponse := mkProgressResponse {
  Percentage : Z;
  Message : string;
  NestingDepth : Z
}.

Definition progressResponse_zero : progressResponse :=
  mkProgressResponse 0 "" 0.

(** [GetProgress] *)
Definition GetProgress (p : Installer) (now : nat)
    : Z * string * Z * option error :=
  let '(variant, err) :=
    BusObject_GetProperty (object p) now (interfaceForMember "Progress") in
  match err with
  | Some err =>
      ((-1)%Z, "", (-1)%Z,
       Some (fmt_Errorf "RAUC: GetProperty(Progress): " err))
  | None =>
      let src := [Variant_Value variant] in
      let '(response, err) :=
        Store1 (store_struct3 "rauc.progressResponse" store_int32
                  store_string store_int32 mkProgressResponse)
          src progressResponse_zero in
      match err with
      | Some err =>
          ((-1)%Z, "", (-1)%Z,
           Some (fmt_Errorf "RAUC: Cannot store result: " err))
      | None =>
          (Percentage response, Message response, NestingDepth response, None)
      end
  end.

(** ** The earlier revision, installer.go

    [interfaceForMember], the string getters, [Info], [Mark] and
    [GetSlotStatus] read the same in both revisions and are shared. *)

Module Legacy.

(** [InstallerNew]: the subscription goes through the object, and the
    [*Call] it returns is dropped. *)
Definition InstallerNew (SystemBus : Conn + error)
    : option Installer * option error :=
  match SystemBus with
  | inr err => (None, Some err)
  | inl c =>
      let obj := Conn_Object c dbusInterface "/" in
      let _ := BusObject_AddMatchSignal obj
                 (dbusInterface +:+ "." +:+ "Installer") "Completed"
                 [WithMatchObjectPath (BusObject_Path obj)] in
      (Some (mkInstaller c obj), None)
  end.

(** [Install] *)
Definition Install (p : Installer) (filename : string) (iterations : nat)
    : Outcome :=
  let doneChannel := Conn_Signal (conn p) in
  let err :=
    Err (BusObject_Call (object p) (interfaceForMember "Install")
           [VString filename]) in
  match err with
  | Some err => Returned (Some (fmt_Errorf "RAUC: Install(): " err)) 0
  | None => awaitCompleted p doneChannel iterations 0
  end.

(** [progressResponse] of this revision: no field is exported. *)
Record progressResponse := mkProgressResponse {
  percentage : Z;
  message : string;
  nestingDepth : Z
}.

Definition progressResponse_zero : progressResponse :=
  mkProgressResponse 0 "" 0.

(** Storing into a struct without exported fields leaves it as it is. *)
Definition store_progressResponse (dest : progressResponse) (src : Value)
    : progressResponse + error :=
  match store_struct0 "rauc.progressResponse" src with
  | inl _ => inl dest
  | inr e => inr e
  end.

(** [GetProgress]: the error of [dbus.Store] is not looked at. *)
Definition GetProgress (p : Installer) (now : nat)
    : Z * string * Z * option error :=
  let '(variant, err) :=
    BusObject_GetProperty (object p) now (interfaceForMember "Progress") in
  match err with
  | Some err =>
      ((-1)%Z, "", (-1)%Z,
       Some (fmt_Errorf "RAUC: GetProperty(Progress): " err))
  | None =>
      let src := [Variant_Value variant] in
      let '(response, _) :=
        Store1 (store_progressResponse progressResponse_zero) src
          progressResponse_zero in
      (percentage response, message response, nestingDepth response, None)
  end.

End Legacy.

(** ** Vocabulary of the statements *)

(** The call that starts [InstallBundle], and the one that starts
    [Install]. *)
Definition InstallBundle_call (p : Installer) (filename : string)
    (options : InstallBundleOptions) : Call :=
  BusObject_Call (object p) (interfaceForMember "InstallBundle")
    [VString filename;
     VMapInterface {[ "ignore-compatible" := VBool (IgnoreIncompatible options) ]}].

Definition Install_call (p : Installer) (filename : string) : Call :=
  BusObject_Call (object p) (interfaceForMember "Install") [VString filename].

(** A receive that brings a notification other than [Completed]. *)
Definition stray (r : Receive) : Prop :=
  exists signal,
    r = Received signal /\ Name signal <> interfaceForMember "Completed".

(** The first [k] receives on the channel all bring stray notifications. *)
Definition strays (doneChannel : nat -> Receive) (k : nat) : Prop :=
  forall i, i < k -> stray (doneChannel i).

(** The channel stays open and never brings [Completed]: every receive
    either parks or brings a stray notification. *)
Definition never_completes (doneChannel : nat -> Receive) : Prop :=
  forall i, doneChannel i = Parked \/ stray (doneChannel i).

(** The call has come back to its caller. *)
Definition has_returned (o : Outcome) : Prop :=
  exists err receives, o = Returned err receives.

(** The string getters, each with the property it reads and the prefix
    it puts before the message of a failed read. *)
Definition string_getters
    : list (string * string * (Installer -> nat -> string * option error)) :=
  [ ("Operation", "RAUC: GetOperation(): ", GetOperation);
    ("LastError", "RAUC: GetLastError(): ", GetLastError);
    ("Compatible", "RAUC: GetProperty(Compatible): ", GetCompatible);
    ("Variant", "RAUC: GetProperty(Variant): ", GetVariant);
    ("BootSlot", "RAUC: GetProperty(BootSlot): ", GetBootSlot) ].

(** [sub] occurs in [s]. *)
Definition occurs_in (sub s : string) : bool :=
  match String.index 0 sub s with
  | Some _ => true
  | None => false
  end.

(** One entry of a [GetSlotStatus] reply as it arrives in the body. *)
Definition slot_entry (name : string) (attributes : gmap string Variant)
    : Value :=
  VSlice [VString name; VMapVariant attributes].

(** ** Sample environments *)

Module Sample.

Definition no_reply : Call := mkCall None [].

(** A daemon object given by its replies and its properties. *)
Definition daemon (call : string -> list Value -> Call)
    (property : nat -> string -> Variant * option error) : BusObject :=
  mkBusObject call property (fun _ _ _ => no_reply) "/".

(** An installer on a connection whose subscription request ends as
    [subscription] and whose channel observes [signals]. *)
Definition installer (obj : BusObject) (subscription : option error)
    (signals : nat -> Receive) : Installer :=
  mkInstaller (mkConn (fun _ _ => obj) (fun _ => subscription) signals) obj.

(** A channel that observes the listed receives and then [tail] for good. *)
Definition channel (events : list Receive) (tail : Receive)
    : nat -> Receive :=
  fun i => default tail (events !! i).

Definition completed (code : Z) : Signal :=
  mkSignal ":1.7" "/" (interfaceForMember "Completed") [VInt32 code].

Definition properties_changed : Signal :=
  mkSignal ":1.7" "/" "org.freedesktop.DBus.Properties.PropertiesChanged"
    [VString "de.pengutronix.rauc.Installer"].

(** The rendering of a string variant carries double quotes, which
    cmd/copy-from-other-slot strips off again. *)
Definition quoted (s : string) : string :=
  String (Ascii.ascii_of_nat 34) (s +:+ String (Ascii.ascii_of_nat 34) "").

Definition string_variant (s : string) : Variant :=
  mkVariant (VString s) (quoted s).

Definition unreachable : error :=
  errors_New "The name de.pengutronix.rauc was not provided by any .service files".

(** A daemon that accepts every call and whose [LastError] reads as empty
    until two receives have completed and as a failure message from then
    on; every other property reads as [idle]. *)
Definition failing_daemon : BusObject :=
  daemon (fun _ _ => no_reply)
    (fun now name =>
       if String.eqb name (interfaceForMember "LastError") then
         if Nat.ltb now 2 then (string_variant "", None)
         else (string_variant "Failed to verify bundle", None)
       else (string_variant "idle", None)).

(** A daemon that is not there: calls and property reads fail. *)
Definition absent_daemon : BusObject :=
  daemon (fun _ _ => mkCall (Some unreachable) [])
    (fun _ _ => (Variant_zero, Some unreachable)).

(** A daemon whose [Progress] property holds [value]. *)
Definition progress_daemon (value : Value) : BusObject :=
  daemon (fun _ _ => no_reply)
    (fun _ name =>
       if String.eqb name (interfaceForMember "Progress") then
         (mkVariant value "", None)
       else (string_variant "idle", None)).

Definition rootfs0 : gmap string Variant :=
  {[ "class" := string_variant "rootfs";
     "state" := string_variant "booted";
     "device" := string_variant "/dev/mmcblk0p1" ]}.

Definition rootfs1 : gmap string Variant :=
  {[ "class" := string_variant "rootfs";
     "state" := string_variant "inactive";
     "device" := string_variant "/dev/mmcblk0p2" ]}.

(** A daemon with the two slots above. *)
Definition slots_daemon : BusObject :=
  daemon
    (fun method _ =>
       if String.eqb method (interfaceForMember "GetSlotStatus") then
         mkCall None
           [VSlice [slot_entry "rootfs.0" rootfs0; slot_entry "rootfs.1" rootfs1]]
       else no_reply)
    (fun _ _ => (string_variant "idle", None)).

Definition options : InstallBundleOptions := mkInstallBundleOptions false.

End Sample.

(** ** The oldest revision (src/unnamed/part_001)

    Errors travel unwrapped here; the loop is otherwise the one above. *)

Module Oldest.

(** [GetLastError] *)
Definition GetLastError (p : Installer) (now : nat) : string * option error :=
  let '(v, err) :=
    BusObject_GetProperty (object p) now (interfaceForMember "LastError") in
  match err with
  | Some err => ("", Some err)
  | None => (Variant_String v, None)
  end.

(** The [for] loop of [Install]. *)
Fixpoint awaitCompleted (p : Installer) (doneChannel : nat -> Receive)
    (iterations n : nat) : Outcome :=
  match iterations with
  | O => Running
  | S rest =>
      match doneChannel n with
      | Parked => Blocked (S n)
      | Closed => Returned (Some (errors_New "Cannot read from channel")) (S n)
      | Received signal =>
          if String.eqb (Name signal) (interfaceForMember "Completed") then
            let '(code, err) := Store1 store_int32 (Body signal) 0%Z in
            match err with
            | Some err => Returned (Some err) (S n)
            | None =>
                if negb (code =? 0)%Z then
                  let '(errorString, err) := GetLastError p (S n) in
                  match err with
                  | Some err => Returned (Some err) (S n)
                  | None => Returned (Some (errors_New errorString)) (S n)
                  end
                else Returned None (S n)
            end
          else awaitCompleted p doneChannel rest (S n)
      end
  end.

(** [Install] *)
Definition Install (p : Installer) (filename : string) (iterations : nat)
    : Outcome :=
  let doneChannel := Conn_Signal (conn p) in
  let err :=
    Err (BusObject_Call (object p) (interfaceForMember "Install")
           [VString filename]) in
  match err with
  | Some err => Returned (Some err) 0
  | None => awaitCompleted p doneChannel iterations 0
  end.

End Oldest.

(** ** cmd/copy-from-other-slot *)

Module cmd.

Local Open Scope list_scope.

(** The one-character string holding a double quote. *)
Definition quote : string := String (Ascii.ascii_of_nat 34) "".

(** [strings.HasPrefix], [strings.HasSuffix], [strings.TrimPrefix] and
    [strings.TrimSuffix], on byte strings. *)
Definition strings_HasPrefix (s prefix : string) : bool :=
  (String.length prefix <=? String.length s)%nat
  && String.eqb (substring 0 (String.length prefix) s) prefix.

Definition strings_HasSuffix (s suffix : string) : bool :=
  (String.length suffix <=? String.length s)%nat
  && String.eqb
       (substring (String.length s - String.length suffix)
          (String.length suffix) s)
       suffix.

Definition strings_TrimPrefix (s prefix : string) : string :=
  if strings_HasPrefix s prefix then
    substring (String.length prefix)
      (String.length s - String.length prefix) s
  else s.

Definition strings_TrimSuffix (s suffix : string) : string :=
  if strings_HasSuffix s suffix then
    substring 0 (String.length s - String.length suffix) s
  else s.

(** [stripQuotes] *)
Definition stripQuotes (s : string) : string :=
  let s := strings_TrimSuffix s quote in
  let s := strings_TrimPrefix s quote in
  s.

(** The four flags after [flag.Parse()]. *)
Record Flags := mkFlags {
  toFlag : string;
  fromFlag : string;
  mountPointFlag : string;
  classFlag : string
}.

(** The flags when only [-to] and [-from] are given. *)
Definition default_flags (to from : string) : Flags :=
  mkFlags to from "/tmp/rauc-other-slot" "rootfs".

Inductive Level := InfoLevel | ErrorLevel | FatalLevel.

(** What the program does to the outside, in the order it does it: log
    events with their fields and message, and the calls into the
    operating system. *)
Inductive Event :=
| FlagUsage
| Log (level : Level) (fields : list (string * string)) (msg : string)
| MkdirAll (path : string)
| Mount (source target fstype : string)
| Unmount (target : string)
| Open (name : string)
| OpenFile (name : string)
| Close (name : string)
| Copy (dst src : string).

(** What [os.MkdirAll] returns: nil, the value [os.ErrExist] itself, or
    another error. *)
Inductive MkdirAllResult :=
| MkdirAll_nil
| MkdirAll_ErrExist
| MkdirAll_error (err : error).

(** The host the program runs on.  Every call may answer according to
    everything done before it.  [zero_Variant_String] is what [String()]
    gives on the zero [Variant] that indexing a map with a missing key
    yields, [None] standing for a panic. *)
Record Host := mkHost {
  SystemBus : Conn + error;
  os_MkdirAll : list Event -> string -> MkdirAllResult;
  syscall_Mount : list Event -> string -> string -> string -> option error;
  os_Open : list Event -> string -> option error;
  os_OpenFile : list Event -> string -> option error;
  io_Copy : list Event -> string -> string -> option error;
  zero_Variant_String : option string
}.

(** How one pass through the body of the [for] loop ends: at its end or
    at a [continue], at a [return], or in a panic.  [trace] is what has
    been done so far, [defers] the deferred calls, last registered
    first. *)
Inductive Flow :=
| Continue (trace defers : list Event)
| Return (trace defers : list Event)
| Panic (trace defers : list Event).

(** The body of the [for] loop of [main] for one slot. *)
Definition visit (h : Host) (f : Flags) (status : SlotStatus)
    (trace defers : list Event) : Flow :=
  match Status status !! "class" with
  | None => Continue trace defers
  | Some s =>
      if negb (String.eqb (stripQuotes (Variant_String s)) (classFlag f))
      then Continue trace defers
      else
        match Status status !! "state" with
        | None => Continue trace defers
        | Some s =>
            let state := stripQuotes (Variant_String s) in
            if String.eqb state "booted" then Continue trace defers
            else
              let rendered :=
                match Status status !! "device" with
                | Some v => Some (Variant_String v)
                | None => zero_Variant_String h
                end in
              match rendered with
              | None => Panic trace defers
              | Some rendered =>
                  let device := stripQuotes rendered in
                  let trace :=
                    trace ++ [Log InfoLevel [("device", device)]
                                "Device path for mount"] in
                  let err := os_MkdirAll h trace (mountPointFlag f) in
                  let trace := trace ++ [MkdirAll (mountPointFlag f)] in
                  match err with
                  | MkdirAll_error err =>
                      Return
                        (trace ++ [Log ErrorLevel [("error", Error err)]
                                     "MkdirTemp() failed"])
                        defers
                  | _ =>
                      let err :=
                        syscall_Mount h trace device (mountPointFlag f)
                          "squashfs" in
                      let trace :=
                        trace ++ [Mount device (mountPointFlag f) "squashfs"] in
                      match err with
                      | Some err =>
                          Return
                            (trace ++ [Log ErrorLevel
                                         [("error", Error err);
                                          ("device", device);
                                          ("mountPoint", mountPointFlag f)]
                                         "Unable to mount"])
                            defers
                      | None =>
                          let trace :=
                            trace ++ [Log InfoLevel
                                        [("device", device);
                                         ("mountPoint", mountPointFlag f)]
                                        "Successfully mounted"] in
                          let defers := Unmount (mountPointFlag f) :: defers in
                          let from := mountPointFlag f +:+ fromFlag f in
                          let err := os_Open h trace from in
                          let trace := trace ++ [Open from] in
                          match err with
                          | Some err =>
                              Return
                                (trace ++ [Log ErrorLevel
                                             [("error", Error err);
                                              ("from", fromFlag f)]
                                             "Cannot open"])
                                defers
                          | None =>
                              let defers := Close from :: defers in
                              let err := os_OpenFile h trace (toFlag f) in
                              let trace := trace ++ [OpenFile (toFlag f)] in
                              match err with
                              | Some err =>
                                  Return
                                    (trace ++ [Log ErrorLevel
                                                 [("error", Error err);
                                                  ("to", toFlag f)]
                                                 "Cannot open"])
                                    defers
                              | None =>
                                  let defers := Close (toFlag f) :: defers in
                                  let err :=
                                    io_Copy h trace (toFlag f) from in
                                  let trace :=
                                    trace ++ [Copy (toFlag f) from] in
                                  match err with
                                  | Some err =>
                                      Return
                                        (trace ++ [Log ErrorLevel
                                                     [("to", toFlag f);
                                                      ("from", fromFlag f);
                                                      ("error", Error err)]
                                                     "Cannot copy file content"])
                                        defers
                                  | None =>
                                      Continue
                                        (trace ++ [Log InfoLevel
                                                     [("to", toFlag f);
                                                      ("from", fromFlag f);
                                                      ("class", classFlag f)]
                                                     "Successfully copied"])
                                        defers
                                  end
                              end
                          end
                      end
                  end
              end
        end
  end.

(** The [for] loop over the slot statuses. *)
Fixpoint visit_all (h : Host) (f : Flags) (statuses : list SlotStatus)
    (trace defers : list Event) : Flow :=
  match statuses with
  | [] => Continue trace defers
  | status :: rest =>
      match visit h f status trace defers with
      | Continue trace defers => visit_all h f rest trace defers
      | stopped => stopped
      end
  end.

(** How the process ends: [os.Exit] with a code (0 when [main] returns),
    or a crash on a panic. *)
Inductive Ending :=
| Exit (code : Z)
| Crash.

(** [main]: everything done, deferred calls included, and the ending.
    The set-up of the console writer only shapes the log output and is
    left out.  [InstallerNew] and [GetSlotStatus] are those of the current
    revision of the package. *)
Definition main (h : Host) (f : Flags) : list Event * Ending :=
  if String.eqb (toFlag f) "" || String.eqb (fromFlag f) ""
  then ([FlagUsage], Exit 1)
  else
    match InstallerNew (SystemBus h) with
    | (_, Some err) =>
        ([Log FatalLevel [("error", Error err)] "Cannot initialize"], Exit 1)
    | (None, None) => ([], Crash)
    | (Some raucInstaller, None) =>
        let '(statuses, err) := GetSlotStatus raucInstaller in
        match err with
        | Some err =>
            ([Log FatalLevel [("error", Error err)] "Cannot get slot statuses"],
             Exit 1)
        | None =>
            match visit_all h f statuses [] [] with
            | Continue trace defers => (trace ++ defers, Exit 0)
            | Return trace defers => (trace ++ defers, Exit 0)
            | Panic trace defers => (trace ++ defers, Crash)
            end
        end
    end.

End cmd.

(** ** Further vocabulary *)

(** Two receives that differ at most in the sender and the path of the
    signal they bring. *)
Definition same_name_and_body (r1 r2 : Receive) : Prop :=
  match r1, r2 with
  | Received s1, Received s2 => Name s1 = Name s2 /\ Body s1 = Body s2
  | Closed, Closed => True
  | Parked, Parked => True
  | _, _ => False
  end.

(** The slot passes the filter of the loop in [main]: it has a class that
    reads as the wanted one and a state that does not read as booted. *)
Definition eligible (f : cmd.Flags) (status : SlotStatus) : Prop :=
  (exists s, Status status !! "class" = Some s /\
             cmd.stripQuotes (Variant_String s) = cmd.classFlag f) /\
  (exists s, Status status !! "state" = Some s /\
             cmd.stripQuotes (Variant_String s) <> "booted").

(** The device the loop in [main] takes from the slot. *)
Definition device_of (h : cmd.Host) (status : SlotStatus) : option string :=
  cmd.stripQuotes <$>
    match Status status !! "device" with
    | Some v => Some (Variant_String v)
    | None => cmd.zero_Variant_String h
    end.

(** Events that only deferred calls produce. *)
Definition is_cleanup (e : cmd.Event) : bool :=
  match e with
  | cmd.Unmount _ | cmd.Close _ => true
  | _ => false
  end.

Definition is_mount (e : cmd.Event) : bool :=
  match e with
  | cmd.Mount _ _ _ => true
  | _ => false
  end.

Definition is_unmount (e : cmd.Event) : bool :=
  match e with
  | cmd.Unmount _ => true
  | _ => false
  end.

Definition is_error_log (e : cmd.Event) : bool :=
  match e with
  | cmd.Log cmd.ErrorLevel _ _ => true
  | _ => false
  end.

(** A host on which every call into the operating system succeeds. *)
Definition willing_host (bus : Conn + error) : cmd.Host :=
  cmd.mkHost bus (fun _ _ => cmd.MkdirAll_nil) (fun _ _ _ _ => None)
    (fun _ _ => None) (fun _ _ => None) (fun _ _ _ => None) None.

(** A host on which mounting fails. *)
Definition unwilling_host (bus : Conn + error) : cmd.Host :=
  cmd.mkHost bus (fun _ _ => cmd.MkdirAll_ErrExist)
    (fun _ _ _ _ => Some (errors_New "operation not permitted"))
    (fun _ _ => None) (fun _ _ => None) (fun _ _ _ => None) None.

(** The system bus with the daemon [obj] on it. *)
Definition bus_with (obj : BusObject) : Conn + error :=
  inl (mkConn (fun _ _ => obj) (fun _ => None) (fun _ => Parked)).

(** What a pass through the loop body has done and what it has deferred. *)
Definition flow_trace (fl : cmd.Flow) : list cmd.Event :=
  match fl with
  | cmd.Continue trace _ | cmd.Return trace _ | cmd.Panic trace _ => trace
  end.

Definition flow_defers (fl : cmd.Flow) : list cmd.Event :=
  match fl with
  | cmd.Continue _ defers | cmd.Return _ defers | cmd.Panic _ defers => defers
  end.

(** How many events of a kind a trace holds. *)
Definition count (kind : cmd.Event -> bool) (trace : list cmd.Event) : nat :=
  length (List.filter kind trace).

(** Every call the host answers succeeds, whatever came before. *)
Definition obliging (h : cmd.Host) : Prop :=
  (forall trace path e,
     cmd.os_MkdirAll h trace path <> cmd.MkdirAll_error e) /\
  (forall trace source target fstype,
     cmd.syscall_Mount h trace source target fstype = None) /\
  (forall trace name, cmd.os_Open h trace name = None) /\
  (forall trace name, cmd.os_OpenFile h trace name = None) /\
  (forall trace dst src, cmd.io_Copy h trace dst src = None).

(** The mounts of a trace are balanced by deferred unmounts; [slack] is
    the number of mounts allowed to have failed. *)
Definition balanced (slack : nat) (trace defers : list cmd.Event) : Prop :=
  count is_cleanup trace = 0 /\
  forallb is_cleanup defers = true /\
  count is_unmount defers <= count is_mount trace /\
  count is_mount trace <= count is_unmount defers + slack.

Definition flow_balanced (fl : cmd.Flow) : Prop :=
  match fl with
  | cmd.Continue trace defers | cmd.Panic trace defers =>
      balanced 0 trace defers
  | cmd.Return trace defers => balanced 1 trace defers
  end.

(** A trace without error log, and one whose last event is its only
    error log. *)
Definition flow_errors (fl : cmd.Flow) : Prop :=
  match fl with
  | cmd.Continue trace _ | cmd.Panic trace _ => count is_error_log trace = 0
  | cmd.Return trace _ =>
      exists before fields msg,
        trace = (before ++ [cmd.Log cmd.ErrorLevel fields msg])%list /\
        count is_error_log before = 0
  end.

(** Every mount in the trace is a squashfs mount, on the mount point of
    the flags, of the device of a slot of [statuses] that passes the
    filter. *)
Definition mounts_eligible (h : cmd.Host) (f : cmd.Flags)
    (statuses : list SlotStatus) (trace : list cmd.Event) : Prop :=
  forall source target fstype,
    In (cmd.Mount source target fstype) trace ->
    target = cmd.mountPointFlag f /\ fstype = "squashfs" /\
    exists status,
      In status statuses /\ eligible f status /\
      device_of h status = Some source.

(** ** Rendering of string variants

    [String()] of a variant that holds a string is [strconv.Quote] of the
    string.  [strconv_Quote] models it on strings of ASCII bytes and gives
    [None] on the others, whose escaping follows Unicode tables. *)

Definition lowerhex (n : N) : Ascii.ascii :=
  if (n <? 10)%N then Ascii.ascii_of_N (48 + n) else Ascii.ascii_of_N (87 + n).

(** What [strconv.Quote] writes for one ASCII byte. *)
Definition escape_byte (c : Ascii.ascii) : option string :=
  let n := Ascii.N_of_ascii c in
  if (n =? 34)%N || (n =? 92)%N then Some (String (Ascii.ascii_of_N 92) (String c ""))
  else if (32 <=? n)%N && (n <? 127)%N then Some (String c "")
  else if (n =? 7)%N then Some "\a"
  else if (n =? 8)%N then Some "\b"
  else if (n =? 12)%N then Some "\f"
  else if (n =? 10)%N then Some "\n"
  else if (n =? 13)%N then Some "\r"
  else if (n =? 9)%N then Some "\t"
  else if (n =? 11)%N then Some "\v"
  else if (n <? 128)%N then
    Some (String (Ascii.ascii_of_N 92)
            (String (Ascii.ascii_of_N 120)
               (String (lowerhex (N.shiftr n 4))
                  (String (lowerhex (N.land n 15)) ""))))
  else None.

Fixpoint escape (s : string) : option string :=
  match s with
  | EmptyString => Some ""
  | String c rest =>
      match escape_byte c, escape rest with
      | Some a, Some b => Some (a +:+ b)
      | _, _ => None
      end
  end.

(** [strconv.Quote] *)
Definition strconv_Quote (s : string) : option string :=
  match escape s with
  | Some body => Some (cmd.quote +:+ body +:+ cmd.quote)
  | None => None
  end.

(** The variant reads as the library renders it: when it holds a string,
    [String()] gives the quoted form of that string. *)
Definition rendered (v : Variant) : Prop :=
  forall s q,
    Variant_Value v = VString s -> strconv_Quote s = Some q ->
    Variant_String v = q.

(** A byte that [strconv.Quote] leaves as it is, and a string of such
    bytes. *)
Definition plain_byte (c : Ascii.ascii) : bool :=
  let n := Ascii.N_of_ascii c in
  negb ((n =? 34)%N || (n =? 92)%N) && ((32 <=? n)%N && (n <? 127)%N).

Fixpoint plain (s : string) : bool :=
  match s with
  | EmptyString => true
  | String c rest => plain_byte c && plain rest
  end.

(** A successful read through [getter] yields the string the property
    holds. *)
Definition yields_string_value
    (getter : Installer -> nat -> string * option error)
    (property : string) (p : Installer) (now : nat) : Prop :=
  forall v s,
    BusObject_GetProperty (object p) now (interfaceForMember property)
    = (v, None) ->
    rendered v ->
    Variant_Value v = VString s ->
    getter p now = (s, None).

(** ** Why an install has returned *)

Inductive Cause :=
| CallFailed (e : error)
| ChannelClosed
| DecodeFailed (e : error)
| LastErrorUnreadable (e : error)
| DaemonFailure (errorString : string)
| Succeeded.

(** What the oldest revision returns for a cause, and what installer.go
    returns for it. *)
Definition Oldest_error (cause : Cause) : option error :=
  match cause with
  | CallFailed e => Some e
  | ChannelClosed => Some (errors_New "Cannot read from channel")
  | DecodeFailed e => Some e
  | LastErrorUnreadable e => Some e
  | DaemonFailure errorString => Some (errors_New errorString)
  | Succeeded => None
  end.

Definition Legacy_error (cause : Cause) : option error :=
  match cause with
  | CallFailed e => Some (fmt_Errorf "RAUC: Install(): " e)
  | ChannelClosed => Some (errors_New "RAUC: Cannot read from channel")
  | DecodeFailed e => Some e
  | LastErrorUnreadable e => Some (fmt_Errorf "RAUC: GetLastError(): " e)
  | DaemonFailure errorString => Some (errors_New errorString)
  | Succeeded => None
  end.

(** The cause is what the environment shows at the return after
    [receives] receives, [call] being the error of the starting call. *)
Definition caused (p : Installer) (call : option error) (cause : Cause)
    (receives : nat) : Prop :=
  match cause with
  | CallFailed e => call = Some e /\ receives = 0
  | ChannelClosed =>
      call = None /\
      exists k, receives = S k /\ Conn_Signal (conn p) k = Closed
  | DecodeFailed e =>
      call = None /\
      exists k signal code,
        receives = S k /\ Conn_Signal (conn p) k = Received signal /\
        Name signal = interfaceForMember "Completed" /\
        Store1 store_int32 (Body signal) 0%Z = (code, Some e)
  | LastErrorUnreadable e =>
      call = None /\
      exists v,
        BusObject_GetProperty (object p) receives
          (interfaceForMember "LastError") = (v, Some e)
  | DaemonFailure errorString =>
      call = None /\
      exists v,
        BusObject_GetProperty (object p) receives
          (interfaceForMember "LastError") = (v, None) /\
        errorString = Variant_String v
  | Succeeded =>
      call = None /\
      exists k signal,
        receives = S k /\ Conn_Signal (conn p) k = Received signal /\
        Name signal = interfaceForMember "Completed" /\
        Store1 store_int32 (Body signal) 0%Z = (0%Z, None)
  end.

(** Two outcomes of the same course: both running, both parked at the
    same receive, or both returned at the same receive for one cause. *)
Definition same_course (p : Installer) (call : option error)
    (oldest legacy : Outcome) : Prop :=
  (oldest = Running /\ legacy = Running)
  \/
  (exists n, oldest = Blocked n /\ legacy = Blocked n)
  \/
  (exists cause n,
     oldest = Returned (Oldest_error cause) n /\
     legacy = Returned (Legacy_error cause) n /\
     caused p call cause n).

(** ** Mounts the host granted *)

(** How many mounts of [rest] the host answers with nil, [done] being
    what was done before. *)
Fixpoint mounts_granted (h : cmd.Host) (done rest : list cmd.Event) : nat :=
  match rest with
  | [] => 0
  | e :: rest' =>
      match e with
      | cmd.Mount source target fstype =>
          match cmd.syscall_Mount h done source target fstype with
          | None => 1
          | Some _ => 0
          end
      | _ => 0
      end
      + mounts_granted h (done ++ [e])%list rest'
  end.

(** How many files of [rest] the host opens, [done] being what was done
    before. *)
Fixpoint opens_granted (h : cmd.Host) (done rest : list cmd.Event) : nat :=
  match rest with
  | [] => 0
  | e :: rest' =>
      match e with
      | cmd.Open name =>
          match cmd.os_Open h done name with
          | None => 1
          | Some _ => 0
          end
      | cmd.OpenFile name =>
          match cmd.os_OpenFile h done name with
          | None => 1
          | Some _ => 0
          end
      | _ => 0
      end
      + opens_granted h (done ++ [e])%list rest'
  end.

Definition is_close (e : cmd.Event) : bool :=
  match e with
  | cmd.Close _ => true
  | _ => false
  end.

(** ** The wait loop *)

Lemma InstallBundle_started p filename options iterations :
  Err (InstallBundle_call p filename options) = None ->
  InstallBundle p filename options iterations
  = awaitCompleted p (Conn_Signal (conn p)) iterations 0.
Proof.
  unfold InstallBundle, InstallBundle_call. intros ->. reflexivity.
Qed.

Lemma Install_started p filename iterations :
  Err (Install_call p filename) = None ->
  Legacy.Install p filename iterations
  = awaitCompleted p (Conn_Signal (conn p)) iterations 0.
Proof.
  unfold Legacy.Install, Install_call. intros ->. reflexivity.
Qed.

(** One iteration on a stray notification is the rest of the loop, one
    receive later. *)
Lemma awaitCompleted_stray p doneChannel rest n :
  stray (doneChannel n) ->
  awaitCompleted p doneChannel (S rest) n
  = awaitCompleted p doneChannel rest (S n).
Proof.
  intros (signal & Hrecv & Hname). simpl. rewrite Hrecv.
  apply String.eqb_neq in Hname. rewrite Hname. reflexivity.
Qed.

Lemma awaitCompleted_skip p doneChannel k :
  forall n rest,
    (forall i, i < k -> stray (doneChannel (n + i))) ->
    awaitCompleted p doneChannel (k + rest) n
    = awaitCompleted p doneChannel rest (n + k).
Proof.
  induction k as [|k IH]; intros n rest Hstray.
  - simpl. f_equal. lia.
  - replace (S k + rest) with (S (k + rest)) by lia.
    rewrite awaitCompleted_stray.
    + rewrite IH.
      * f_equal. lia.
      * intros i Hi. replace (S n + i) with (n + S i) by lia.
        apply Hstray. lia.
    + replace n with (n + 0) by lia. apply Hstray. lia.
Qed.

Lemma awaitCompleted_strays p doneChannel k rest :
  strays doneChannel k ->
  awaitCompleted p doneChannel (k + rest) 0
  = awaitCompleted p doneChannel rest k.
Proof.
  intros Hstrays. rewrite awaitCompleted_skip; [reflexivity|].
  intros i Hi. apply Hstrays, Hi.
Qed.

(** While only stray notifications have arrived the loop is running. *)
Lemma awaitCompleted_running p doneChannel k iterations :
  strays doneChannel k -> iterations <= k ->
  awaitCompleted p doneChannel iterations 0 = Running.
Proof.
  intros Hstrays Hle.
  assert (Hpre : strays doneChannel iterations)
    by (intros i Hi; apply Hstrays; lia).
  replace iterations with (iterations + 0) at 1 by lia.
  rewrite (awaitCompleted_strays _ _ _ _ Hpre). reflexivity.
Qed.

(** What the iteration that meets the first event other than a stray
    notification returns is what the whole loop returns. *)
Lemma awaitCompleted_at p doneChannel k iterations :
  strays doneChannel k -> k < iterations ->
  awaitCompleted p doneChannel iterations 0
  = awaitCompleted p doneChannel (iterations - k) k.
Proof.
  intros Hstrays Hlt.
  replace iterations with (k + (iterations - k)) at 1 by lia.
  apply awaitCompleted_strays, Hstrays.
Qed.

(** On a channel that never completes the loop never returns. *)
Lemma awaitCompleted_never_returns p doneChannel iterations :
  never_completes doneChannel ->
  forall n, ~ has_returned (awaitCompleted p doneChannel iterations n).
Proof.
  intros Hnever.
  induction iterations as [|rest IH]; intros n (err & receives & Hret).
  - discriminate.
  - destruct (Hnever n) as [Hparked | Hstray].
    + simpl in Hret. rewrite Hparked in Hret. discriminate.
    + rewrite awaitCompleted_stray in Hret by assumption.
      apply (IH (S n)). exists err, receives. exact Hret.
Qed.

(** The iteration that receives [Completed], spelled out. *)
Lemma awaitCompleted_completed p doneChannel rest n signal :
  doneChannel n = Received signal ->
  Name signal = interfaceForMember "Completed" ->
  awaitCompleted p doneChannel (S rest) n
  = let '(code, err) := Store1 store_int32 (Body signal) 0%Z in
    match err with
    | Some err => Returned (Some err) (S n)
    | None =>
        if negb (code =? 0)%Z then
          let '(errorString, err) := GetLastError p (S n) in
          match err with
          | Some err => Returned (Some err) (S n)
          | None => Returned (Some (errors_New errorString)) (S n)
          end
        else Returned None (S n)
    end.
Proof.
  intros Hrecv Hname. simpl. rewrite Hrecv.
  apply String.eqb_eq in Hname. rewrite Hname. reflexivity.
Qed.

(** Both install operations, once started, are the same wait. *)
Ltac started :=
  split; intros Hcall;
  [ rewrite (InstallBundle_started _ _ _ _ Hcall)
  | rewrite (Install_started _ _ _ Hcall) ].

Ltac at_event Hstrays Hlt :=
  rewrite (awaitCompleted_at _ _ _ _ Hstrays Hlt);
  match goal with
  | |- context [awaitCompleted _ _ (?it - ?k) _] =>
      replace (it - k) with (S (it - k - 1)) by lia
  end.

(** ** The install operations *)

(** C1.  When the wait meets a [Completed] signal whose payload decodes to
    a code other than zero, and the read of the [LastError] property made
    at that moment yields a variant, [InstallBundle] and [Install] return
    an error whose message is the string of that variant, whatever the
    code is. *)
Theorem install_nonzero_code_reports_last_error
    p filename options k signal code v iterations :
  strays (Conn_Signal (conn p)) k ->
  Conn_Signal (conn p) k = Received signal ->
  Name signal = interfaceForMember "Completed" ->
  Store1 store_int32 (Body signal) 0%Z = (code, None) ->
  code <> 0%Z ->
  BusObject_GetProperty (object p) (S k) (interfaceForMember "LastError")
  = (v, None) ->
  k < iterations ->
  (Err (InstallBundle_call p filename options) = None ->
   InstallBundle p filename options iterations
   = Returned (Some (errors_New (Variant_String v))) (S k))
  /\
  (Err (Install_call p filename) = None ->
   Legacy.Install p filename iterations
   = Returned (Some (errors_New (Variant_String v))) (S k)).
Proof.
  intros Hstrays Hrecv Hname Hstore Hcode Hprop Hlt.
  started; at_event Hstrays Hlt;
    rewrite (awaitCompleted_completed _ _ _ _ _ Hrecv Hname), Hstore;
    apply Z.eqb_neq in Hcode; rewrite Hcode; simpl;
    unfold GetLastError; rewrite Hprop; reflexivity.
Qed.

(** X6.  When the read of [LastError] made on a non-zero code fails, the
    error of the read, with its [RAUC: GetLastError(): ] prefix, is what
    the install operation returns. *)
Lemma install_nonzero_code_last_error_unreadable
    p filename options k signal code v e iterations :
  strays (Conn_Signal (conn p)) k ->
  Conn_Signal (conn p) k = Received signal ->
  Name signal = interfaceForMember "Completed" ->
  Store1 store_int32 (Body signal) 0%Z = (code, None) ->
  code <> 0%Z ->
  BusObject_GetProperty (object p) (S k) (interfaceForMember "LastError")
  = (v, Some e) ->
  k < iterations ->
  (Err (InstallBundle_call p filename options) = None ->
   InstallBundle p filename options iterations
   = Returned (Some (fmt_Errorf "RAUC: GetLastError(): " e)) (S k))
  /\
  (Err (Install_call p filename) = None ->
   Legacy.Install p filename iterations
   = Returned (Some (fmt_Errorf "RAUC: GetLastError(): " e)) (S k)).
Proof.
  intros Hstrays Hrecv Hname Hstore Hcode Hprop Hlt.
  started; at_event Hstrays Hlt;
    rewrite (awaitCompleted_completed _ _ _ _ _ Hrecv Hname), Hstore;
    apply Z.eqb_neq in Hcode; rewrite Hcode; simpl;
    unfold GetLastError; rewrite Hprop; reflexivity.
Qed.

(** X5.  A [Completed] signal whose payload does not decode to a code
    ends the wait: the install operation returns the error of
    [dbus.Store] as it is. *)
Lemma install_undecodable_payload
    p filename options k signal code e iterations :
  strays (Conn_Signal (conn p)) k ->
  Conn_Signal (conn p) k = Received signal ->
  Name signal = interfaceForMember "Completed" ->
  Store1 store_int32 (Body signal) 0%Z = (code, Some e) ->
  k < iterations ->
  (Err (InstallBundle_call p filename options) = None ->
   InstallBundle p filename options iterations = Returned (Some e) (S k))
  /\
  (Err (Install_call p filename) = None ->
   Legacy.Install p filename iterations = Returned (Some e) (S k)).
Proof.
  intros Hstrays Hrecv Hname Hstore Hlt.
  started; at_event Hstrays Hlt;
    rewrite (awaitCompleted_completed _ _ _ _ _ Hrecv Hname), Hstore;
    reflexivity.
Qed.

(** C2.  When the wait meets a [Completed] signal whose payload decodes to
    the code zero, [InstallBundle] and [Install] return nil.  Nothing else
    about the environment is assumed: the stray notifications before it,
    whatever the channel holds after it and every property of the daemon
    are arbitrary. *)
Theorem install_zero_code_succeeds
    p filename options k signal iterations :
  strays (Conn_Signal (conn p)) k ->
  Conn_Signal (conn p) k = Received signal ->
  Name signal = interfaceForMember "Completed" ->
  Store1 store_int32 (Body signal) 0%Z = (0%Z, None) ->
  k < iterations ->
  (Err (InstallBundle_call p filename options) = None ->
   InstallBundle p filename options iterations = Returned None (S k))
  /\
  (Err (Install_call p filename) = None ->
   Legacy.Install p filename iterations = Returned None (S k)).
Proof.
  intros Hstrays Hrecv Hname Hstore Hlt.
  started; at_event Hstrays Hlt;
    rewrite (awaitCompleted_completed _ _ _ _ _ Hrecv Hname), Hstore;
    reflexivity.
Qed.

(** C3.  Notifications received during the wait whose name is not that of
    the [Completed] member are discarded and the wait goes on: after [k] of
    them the operation has not returned, and what remains of it is the
    wait loop started afresh at receive [k], which keeps nothing of them. *)
Theorem install_discards_stray_notifications p filename options k :
  strays (Conn_Signal (conn p)) k ->
  (Err (InstallBundle_call p filename options) = None ->
   (forall iterations, iterations <= k ->
      InstallBundle p filename options iterations = Running) /\
   (forall rest,
      InstallBundle p filename options (k + rest)
      = awaitCompleted p (Conn_Signal (conn p)) rest k))
  /\
  (Err (Install_call p filename) = None ->
   (forall iterations, iterations <= k ->
      Legacy.Install p filename iterations = Running) /\
   (forall rest,
      Legacy.Install p filename (k + rest)
      = awaitCompleted p (Conn_Signal (conn p)) rest k)).
Proof.
  intros Hstrays. split; intros Hcall; split.
  - intros iterations Hle. rewrite (InstallBundle_started _ _ _ _ Hcall).
    exact (awaitCompleted_running _ _ _ _ Hstrays Hle).
  - intros rest. rewrite (InstallBundle_started _ _ _ _ Hcall).
    exact (awaitCompleted_strays _ _ _ _ Hstrays).
  - intros iterations Hle. rewrite (Install_started _ _ _ Hcall).
    exact (awaitCompleted_running _ _ _ _ Hstrays Hle).
  - intros rest. rewrite (Install_started _ _ _ Hcall).
    exact (awaitCompleted_strays _ _ _ _ Hstrays).
Qed.

(** C4.  When the call that starts the install comes back with an error,
    [InstallBundle] and [Install] return at once an error that prefixes the
    message of that error with [RAUC: Install(): ], and they have started
    no receive on the signal channel: this holds for every iteration
    budget, zero included. *)
Theorem install_call_failure_returns_at_once
    p filename options e iterations :
  (Err (InstallBundle_call p filename options) = Some e ->
   InstallBundle p filename options iterations
   = Returned (Some (fmt_Errorf "RAUC: Install(): " e)) 0)
  /\
  (Err (Install_call p filename) = Some e ->
   Legacy.Install p filename iterations
   = Returned (Some (fmt_Errorf "RAUC: Install(): " e)) 0).
Proof.
  split; intros Hcall.
  - unfold InstallBundle. unfold InstallBundle_call in Hcall.
    rewrite Hcall. reflexivity.
  - unfold Legacy.Install. unfold Install_call in Hcall.
    rewrite Hcall. reflexivity.
Qed.

(** C5.  When the channel is found closed before any [Completed] signal
    has been received, [InstallBundle] and [Install] return the error
    [RAUC: Cannot read from channel], which is not nil. *)
Theorem install_channel_closed_is_an_error
    p filename options k iterations :
  strays (Conn_Signal (conn p)) k ->
  Conn_Signal (conn p) k = Closed ->
  k < iterations ->
  (Err (InstallBundle_call p filename options) = None ->
   InstallBundle p filename options iterations
   = Returned (Some (errors_New "RAUC: Cannot read from channel")) (S k))
  /\
  (Err (Install_call p filename) = None ->
   Legacy.Install p filename iterations
   = Returned (Some (errors_New "RAUC: Cannot read from channel")) (S k)).
Proof.
  intros Hstrays Hclosed Hlt.
  started; at_event Hstrays Hlt; simpl; rewrite Hclosed; reflexivity.
Qed.

(** C9.  The wait has no timeout.  When the starting call succeeds and the
    channel stays open without ever bringing [Completed], [InstallBundle]
    and [Install] have not returned after any number of iterations. *)
Theorem install_waits_forever p filename options :
  never_completes (Conn_Signal (conn p)) ->
  (Err (InstallBundle_call p filename options) = None ->
   forall iterations,
     ~ has_returned (InstallBundle p filename options iterations))
  /\
  (Err (Install_call p filename) = None ->
   forall iterations,
     ~ has_returned (Legacy.Install p filename iterations)).
Proof.
  intros Hnever. split; intros Hcall iterations.
  - rewrite (InstallBundle_started _ _ _ _ Hcall).
    apply awaitCompleted_never_returns, Hnever.
  - rewrite (Install_started _ _ _ Hcall).
    apply awaitCompleted_never_returns, Hnever.
Qed.

(** *** The install operations on sample environments *)

Lemma stray_properties_changed :
  stray (Received Sample.properties_changed).
Proof.
  exists Sample.properties_changed. split; [reflexivity | discriminate].
Qed.

Lemma strays_one tail rest :
  strays (Sample.channel (Received Sample.properties_changed :: rest) tail) 1.
Proof.
  intros [|i] Hi; [exact stray_properties_changed | lia].
Defined.

Lemma install_nonzero_code_reports_last_error_witness :
  let p := Sample.installer Sample.failing_daemon None
             (Sample.channel [Received Sample.properties_changed;
                              Received (Sample.completed 1)] Parked) in
  InstallBundle p "/data/update.raucb" Sample.options 2
  = Returned (Some (errors_New (Sample.quoted "Failed to verify bundle"))) 2
  /\
  Legacy.Install p "/data/update.raucb" 2
  = Returned (Some (errors_New (Sample.quoted "Failed to verify bundle"))) 2.
Proof.
  intros p.
  destruct (install_nonzero_code_reports_last_error
              p "/data/update.raucb" Sample.options 1 (Sample.completed 1)
              1%Z (Sample.string_variant "Failed to verify bundle") 2)
    as [Hbundle Hinstall].
  - apply strays_one.
  - reflexivity.
  - reflexivity.
  - reflexivity.
  - discriminate.
  - reflexivity.
  - lia.
  - split; [apply Hbundle | apply Hinstall]; reflexivity.
Defined.

Lemma install_zero_code_succeeds_witness :
  let p := Sample.installer Sample.failing_daemon (Some Sample.unreachable)
             (Sample.channel [Received Sample.properties_changed;
                              Received (Sample.completed 0);
                              Received (Sample.completed 7)] Closed) in
  InstallBundle p "/data/update.raucb" Sample.options 3 = Returned None 2
  /\
  Legacy.Install p "/data/update.raucb" 3 = Returned None 2.
Proof.
  intros p.
  destruct (install_zero_code_succeeds
              p "/data/update.raucb" Sample.options 1 (Sample.completed 0) 3)
    as [Hbundle Hinstall].
  - apply strays_one.
  - reflexivity.
  - reflexivity.
  - reflexivity.
  - lia.
  - split; [apply Hbundle | apply Hinstall]; reflexivity.
Defined.

Lemma install_discards_stray_notifications_witness :
  let p := Sample.installer Sample.failing_daemon None
             (Sample.channel [Received Sample.properties_changed;
                              Received (Sample.completed 0)] Parked) in
  (InstallBundle p "/data/update.raucb" Sample.options 1 = Running /\
   InstallBundle p "/data/update.raucb" Sample.options (1 + 1)
   = awaitCompleted p (Conn_Signal (conn p)) 1 1)
  /\
  (Legacy.Install p "/data/update.raucb" 1 = Running /\
   Legacy.Install p "/data/update.raucb" (1 + 1)
   = awaitCompleted p (Conn_Signal (conn p)) 1 1).
Proof.
  intros p.
  destruct (install_discards_stray_notifications
              p "/data/update.raucb" Sample.options 1 (strays_one _ _))
    as [Hbundle Hinstall].
  destruct (Hbundle eq_refl) as [Hb1 Hb2].
  destruct (Hinstall eq_refl) as [Hi1 Hi2].
  split; split.
  - apply Hb1. lia.
  - apply Hb2.
  - apply Hi1. lia.
  - apply Hi2.
Defined.

Lemma install_call_failure_returns_at_once_witness :
  let p := Sample.installer Sample.absent_daemon None
             (Sample.channel [Received (Sample.completed 0)] Closed) in
  InstallBundle p "/data/update.raucb" Sample.options 0
  = Returned (Some (fmt_Errorf "RAUC: Install(): " Sample.unreachable)) 0
  /\
  Legacy.Install p "/data/update.raucb" 0
  = Returned (Some (fmt_Errorf "RAUC: Install(): " Sample.unreachable)) 0.
Proof.
  intros p.
  destruct (install_call_failure_returns_at_once
              p "/data/update.raucb" Sample.options Sample.unreachable 0)
    as [Hbundle Hinstall].
  split; [apply Hbundle | apply Hinstall]; reflexivity.
Defined.

Lemma install_channel_closed_is_an_error_witness :
  let p := Sample.installer Sample.failing_daemon None
             (Sample.channel [Received Sample.properties_changed] Closed) in
  InstallBundle p "/data/update.raucb" Sample.options 2
  = Returned (Some (errors_New "RAUC: Cannot read from channel")) 2
  /\
  Legacy.Install p "/data/update.raucb" 2
  = Returned (Some (errors_New "RAUC: Cannot read from channel")) 2.
Proof.
  intros p.
  destruct (install_channel_closed_is_an_error
              p "/data/update.raucb" Sample.options 1 2)
    as [Hbundle Hinstall].
  - apply strays_one.
  - reflexivity.
  - lia.
  - split; [apply Hbundle | apply Hinstall]; reflexivity.
Defined.

Lemma install_waits_forever_witness :
  let p := Sample.installer Sample.failing_daemon None
             (fun _ => Received Sample.properties_changed) in
  ~ has_returned (InstallBundle p "/data/update.raucb" Sample.options 1000)
  /\
  ~ has_returned (Legacy.Install p "/data/update.raucb" 1000).
Proof.
  intros p.
  destruct (install_waits_forever p "/data/update.raucb" Sample.options)
    as [Hbundle Hinstall].
  - intros i. right. exact stray_properties_changed.
  - split; [apply Hbundle | apply Hinstall]; reflexivity.
Defined.

(** A channel that brings nothing at all parks the caller on its first
    receive. *)
Lemma install_parks_on_silent_channel :
  let p := Sample.installer Sample.failing_daemon None (fun _ => Parked) in
  forall iterations,
    InstallBundle p "/data/update.raucb" Sample.options (S iterations)
    = Blocked 1.
Proof.
  intros p iterations. reflexivity.
Qed.

(** ** The string getters *)

(** ** Construction *)

(** C10.  [InstallerNew], in both revisions, fails exactly when
    [dbus.SystemBus()] fails, and then with that error.  On a connection
    it returns an installer and nil whatever the connection and its object
    answer to the subscription request, whose result takes no part in the
    outcome. *)
Theorem InstallerNew_fails_only_without_bus :
  (forall c,
     InstallerNew (inl c)
     = (Some (mkInstaller c (Conn_Object c dbusInterface "/")), None)
     /\
     Legacy.InstallerNew (inl c)
     = (Some (mkInstaller c (Conn_Object c dbusInterface "/")), None))
  /\
  (forall e,
     InstallerNew (inr e) = (None, Some e) /\
     Legacy.InstallerNew (inr e) = (None, Some e))
  /\
  (forall bus e,
     snd (InstallerNew bus) = Some e \/ snd (Legacy.InstallerNew bus) = Some e ->
     bus = inr e).
Proof.
  split; [|split].
  - intros c. split; reflexivity.
  - intros e. split; reflexivity.
  - intros [c|e'] e [H|H]; simpl in H; try discriminate;
      injection H as ->; reflexivity.
Qed.

Lemma InstallerNew_fails_only_without_bus_witness :
  let c := mkConn (fun _ _ => Sample.absent_daemon)
             (fun _ => Some Sample.unreachable) (fun _ => Closed) in
  Conn_AddMatchSignal c [] = Some Sample.unreachable /\
  fst (InstallerNew (inl c)) = Some (mkInstaller c Sample.absent_daemon) /\
  snd (InstallerNew (inl c)) = None /\
  (inr Sample.unreachable : Conn + error) = inr Sample.unreachable.
Proof.
  intros c.
  destruct InstallerNew_fails_only_without_bus as (Hok & Hfail & Honly).
  destruct (Hok c) as [Hnew _].
  split; [reflexivity|]. split; [rewrite Hnew; reflexivity|].
  split; [rewrite Hnew; reflexivity|].
  apply (Honly (inr Sample.unreachable) Sample.unreachable).
  left. reflexivity.
Defined.

(** ** Slot status *)

Lemma store_elems_slot_entries (entries : list (string * gmap string Variant)) :
  store_elems store_SlotStatus
    (map (fun '(name, attributes) => slot_entry name attributes) entries)
  = inl (map (fun '(name, attributes) => mkSlotStatus name attributes)
           entries).
Proof.
  induction entries as [|[name attributes] entries IH].
  - reflexivity.
  - cbn [map store_elems]. rewrite IH. reflexivity.
Qed.

(** A reply of any number of well-formed entries decodes to as many
    [SlotStatus] values, in the order of the reply. *)
Lemma GetSlotStatus_decodes p (entries : list (string * gmap string Variant)) :
  BusObject_Call (object p) (interfaceForMember "GetSlotStatus") []
  = mkCall None
      [VSlice (map (fun '(name, attributes) => slot_entry name attributes)
                 entries)] ->
  GetSlotStatus p
  = (map (fun '(name, attributes) => mkSlotStatus name attributes) entries,
     None).
Proof.
  intros Hcall. unfold GetSlotStatus, Call_Store. rewrite Hcall.
  cbn [Err CallBody Store1 store_slice].
  rewrite store_elems_slot_entries. reflexivity.
Qed.

(** Failure of the call or of the decoding gives no slots and a prefixed
    error. *)
Lemma GetSlotStatus_call_error p e body :
  BusObject_Call (object p) (interfaceForMember "GetSlotStatus") []
  = mkCall (Some e) body ->
  GetSlotStatus p = ([], Some (fmt_Errorf "RAUC: GetSlotStatus(): " e)).
Proof.
  intros Hcall. unfold GetSlotStatus, Call_Store. rewrite Hcall. reflexivity.
Qed.

(** C8.  A [GetSlotStatus] reply of two slot entries decodes to exactly two
    [SlotStatus] values in the order of the reply; each carries the name
    of its entry, and looking a key up in its [Status] gives what the
    entry's attributes hold under that key. *)
Theorem GetSlotStatus_two_slots p name0 attributes0 name1 attributes1 :
  BusObject_Call (object p) (interfaceForMember "GetSlotStatus") []
  = mkCall None
      [VSlice [slot_entry name0 attributes0; slot_entry name1 attributes1]] ->
  exists first second,
    GetSlotStatus p = ([first; second], None) /\
    SlotName first = name0 /\
    SlotName second = name1 /\
    (forall key : string, Status first !! key = attributes0 !! key) /\
    (forall key : string, Status second !! key = attributes1 !! key).
Proof.
  intros Hcall.
  exists (mkSlotStatus name0 attributes0), (mkSlotStatus name1 attributes1).
  split.
  - apply (GetSlotStatus_decodes p [(name0, attributes0); (name1, attributes1)]).
    exact Hcall.
  - repeat split.
Qed.

Lemma GetSlotStatus_two_slots_witness :
  exists first second,
    GetSlotStatus (Sample.installer Sample.slots_daemon None (fun _ => Parked))
    = ([first; second], None) /\
    SlotName first = "rootfs.0" /\
    SlotName second = "rootfs.1" /\
    (forall key : string, Status first !! key = Sample.rootfs0 !! key) /\
    (forall key : string, Status second !! key = Sample.rootfs1 !! key).
Proof.
  apply (GetSlotStatus_two_slots
           (Sample.installer Sample.slots_daemon None (fun _ => Parked))).
  reflexivity.
Defined.

(** The attributes of the sample reply, each found under its key. *)
Lemma GetSlotStatus_sample_attributes :
  let status :=
    fst (GetSlotStatus
           (Sample.installer Sample.slots_daemon None (fun _ => Parked))) in
  map SlotName status = ["rootfs.0"; "rootfs.1"] /\
  map (fun slot => Variant_Value <$> Status slot !! "class") status
  = [Some (VString "rootfs"); Some (VString "rootfs")] /\
  map (fun slot => Variant_Value <$> Status slot !! "state") status
  = [Some (VString "booted"); Some (VString "inactive")] /\
  map (fun slot => Variant_Value <$> Status slot !! "device") status
  = [Some (VString "/dev/mmcblk0p1"); Some (VString "/dev/mmcblk0p2")] /\
  map (fun slot => Variant_Value <$> Status slot !! "bootname") status
  = [None; None].
Proof.
  vm_compute. repeat split.
Qed.

(** ** Progress *)

(** X12.  In the current revision every three-field aggregate of an
    integer, a string and an integer decodes field by field: [GetProgress]
    returns exactly these three values and nil. *)
Lemma GetProgress_decodes_aggregate p now pct msg depth text :
  BusObject_GetProperty (object p) now (interfaceForMember "Progress")
  = (mkVariant (VSlice [VInt32 pct; VString msg; VInt32 depth]) text, None) ->
  GetProgress p now = (pct, msg, depth, None).
Proof.
  intros Hread. unfold GetProgress. rewrite Hread. reflexivity.
Qed.

(** X13.  In the current revision a failure of [dbus.Store] is returned
    under its own prefix, which no failed read of the property can
    carry. *)
Lemma GetProgress_decode_error p now v response e :
  BusObject_GetProperty (object p) now (interfaceForMember "Progress")
  = (v, None) ->
  Store1 (store_struct3 "rauc.progressResponse" store_int32 store_string
            store_int32 mkProgressResponse)
    [Variant_Value v] progressResponse_zero
  = (response, Some e) ->
  GetProgress p now
  = ((-1)%Z, "", (-1)%Z, Some (fmt_Errorf "RAUC: Cannot store result: " e))
  /\
  forall e',
    fmt_Errorf "RAUC: Cannot store result: " e
    <> fmt_Errorf "RAUC: GetProperty(Progress): " e'.
Proof.
  intros Hread Hstore. split.
  - unfold GetProgress. rewrite Hread. cbv zeta. rewrite Hstore. reflexivity.
  - intros e'. unfold fmt_Errorf. simpl. discriminate.
Qed.

Lemma GetProgress_read_error p now v e :
  BusObject_GetProperty (object p) now (interfaceForMember "Progress")
  = (v, Some e) ->
  GetProgress p now
  = ((-1)%Z, "", (-1)%Z, Some (fmt_Errorf "RAUC: GetProperty(Progress): " e))
  /\
  Legacy.GetProgress p now
  = ((-1)%Z, "", (-1)%Z, Some (fmt_Errorf "RAUC: GetProperty(Progress): " e)).
Proof.
  intros Hread. unfold GetProgress, Legacy.GetProgress. rewrite Hread.
  split; reflexivity.
Qed.

(** X14.  In installer.go the outcome of [dbus.Store] is dropped and the
    struct has no exported field: once the property has been read,
    [GetProgress] returns zeros and nil whatever the value is. *)
Lemma Legacy_GetProgress_ignores_value p now v :
  BusObject_GetProperty (object p) now (interfaceForMember "Progress")
  = (v, None) ->
  Legacy.GetProgress p now = (0%Z, "", 0%Z, None).
Proof.
  intros Hread. unfold Legacy.GetProgress. rewrite Hread. cbv zeta.
  unfold Store1, Legacy.store_progressResponse.
  destruct (store_struct0 _ (Variant_Value v)); reflexivity.
Qed.

(** C6.  [GetProgress] on the aggregate (42, copying image, 1) and on a
    value that is no aggregate at all.  The current revision returns the
    three fields with nil, and a decode error under its own prefix.  The
    revision in installer.go returns zeros and nil on both. *)
Theorem GetProgress_on_sample_values :
  let aggregate := VSlice [VInt32 42; VString "copying image"; VInt32 1] in
  let misshapen := VString "copying image" in
  let installer value :=
    Sample.installer (Sample.progress_daemon value) None (fun _ => Parked) in
  GetProgress (installer aggregate) 0 = (42%Z, "copying image", 1%Z, None)
  /\
  GetProgress (installer misshapen) 0
  = ((-1)%Z, "", (-1)%Z,
     Some (fmt_Errorf "RAUC: Cannot store result: "
             (type_mismatch misshapen "rauc.progressResponse")))
  /\
  Legacy.GetProgress (installer aggregate) 0 = (0%Z, "", 0%Z, None)
  /\
  Legacy.GetProgress (installer misshapen) 0 = (0%Z, "", 0%Z, None).
Proof.
  intros aggregate misshapen installer. repeat split.
Qed.

(** ** Member names *)

Lemma append_cancel_l (prefix a b : string) :
  prefix +:+ a = prefix +:+ b -> a = b.
Proof.
  induction prefix as [|c prefix IH]; simpl; intros Heq.
  - exact Heq.
  - injection Heq as Heq. apply IH, Heq.
Qed.

Lemma interfaceForMember_shape method :
  interfaceForMember method = "de.pengutronix.rauc.Installer." +:+ method.
Proof. reflexivity. Qed.

(** X1.  [interfaceForMember] puts the fixed prefix
    [de.pengutronix.rauc.Installer.] before the member, so different
    members get different names: in particular the name of no other member
    equals the name the wait loop compares signals with. *)
Theorem interfaceForMember_distinct a b :
  a <> b ->
  interfaceForMember a <> interfaceForMember b /\
  interfaceForMember a = "de.pengutronix.rauc.Installer." +:+ a.
Proof.
  intros Hne. split; [|reflexivity].
  intros Heq. apply Hne.
  rewrite !interfaceForMember_shape in Heq.
  exact (append_cancel_l _ _ _ Heq).
Qed.

Lemma interfaceForMember_distinct_witness :
  interfaceForMember "Progress" <> interfaceForMember "Completed" /\
  interfaceForMember "Progress" = "de.pengutronix.rauc.Installer.Progress".
Proof.
  apply (interfaceForMember_distinct "Progress" "Completed"). discriminate.
Defined.

(** ** More on the wait *)

(** A return of the loop comes from a closed channel or from a
    [Completed] signal, met after stray notifications only. *)
Lemma awaitCompleted_returned_inv p doneChannel iterations :
  forall n err receives,
    awaitCompleted p doneChannel iterations n = Returned err receives ->
    exists k,
      k < iterations /\
      (forall i, i < k -> stray (doneChannel (n + i))) /\
      receives = S (n + k) /\
      (doneChannel (n + k) = Closed \/
       exists signal,
         doneChannel (n + k) = Received signal /\
         Name signal = interfaceForMember "Completed").
Proof.
  induction iterations as [|rest IH]; intros n err receives Hret.
  - discriminate.
  - simpl in Hret.
    destruct (doneChannel n) as [signal| |] eqn:Hrecv.
    + destruct (String.eqb (Name signal) (interfaceForMember "Completed"))
        eqn:Hname.
      * exists 0. rewrite Nat.add_0_r.
        split; [lia|]. split; [intros i Hi; lia|]. split.
        -- destruct (Store1 store_int32 (Body signal) 0%Z) as [code [e|]];
             [congruence|].
           destruct (negb (code =? 0)%Z); [|congruence].
           destruct (GetLastError p (S n)) as [s [e|]]; congruence.
        -- right. exists signal. split; [exact Hrecv|].
           apply String.eqb_eq, Hname.
      * destruct (IH _ _ _ Hret) as (k & Hlt & Hstrays & Hcount & Hevent).
        exists (S k). split; [lia|]. split; [|split].
        -- intros [|i] Hi.
           ++ rewrite Nat.add_0_r. exists signal.
              split; [exact Hrecv | apply String.eqb_neq, Hname].
           ++ replace (n + S i) with (S n + i) by lia. apply Hstrays. lia.
        -- lia.
        -- replace (n + S k) with (S n + k) by lia. exact Hevent.
    + exists 0. rewrite Nat.add_0_r.
      split; [lia|]. split; [intros i Hi; lia|].
      split; [congruence | left; exact Hrecv].
    + discriminate.
Qed.

(** X3.  [InstallBundle] and [Install] return in two ways only: at once,
    with the wrapped error of the starting call and no receive started; or
    from the wait, at the first receive that does not bring a stray
    notification, which then finds the channel closed or brings a
    [Completed] signal.  Nothing behind that receive is taken from the
    channel. *)
Theorem install_returns_only_on_close_or_completed
    p filename options iterations err receives :
  (InstallBundle p filename options iterations = Returned err receives ->
   (receives = 0 /\
    exists e, Err (InstallBundle_call p filename options) = Some e /\
              err = Some (fmt_Errorf "RAUC: Install(): " e))
   \/
   (Err (InstallBundle_call p filename options) = None /\
    exists k,
      k < iterations /\ strays (Conn_Signal (conn p)) k /\ receives = S k /\
      (Conn_Signal (conn p) k = Closed \/
       exists signal,
         Conn_Signal (conn p) k = Received signal /\
         Name signal = interfaceForMember "Completed")))
  /\
  (Legacy.Install p filename iterations = Returned err receives ->
   (receives = 0 /\
    exists e, Err (Install_call p filename) = Some e /\
              err = Some (fmt_Errorf "RAUC: Install(): " e))
   \/
   (Err (Install_call p filename) = None /\
    exists k,
      k < iterations /\ strays (Conn_Signal (conn p)) k /\ receives = S k /\
      (Conn_Signal (conn p) k = Closed \/
       exists signal,
         Conn_Signal (conn p) k = Received signal /\
         Name signal = interfaceForMember "Completed"))).
Proof.
  split; intros Hret.
  - unfold InstallBundle in Hret. fold (InstallBundle_call p filename options) in Hret.
    destruct (Err (InstallBundle_call p filename options)) as [e|].
    + left. injection Hret as <- <-. split; [reflexivity|].
      exists e. split; reflexivity.
    + right. split; [reflexivity|].
      destruct (awaitCompleted_returned_inv _ _ _ _ _ _ Hret)
        as (k & Hlt & Hstrays & Hcount & Hevent).
      exists k. repeat split; assumption.
  - unfold Legacy.Install in Hret. fold (Install_call p filename) in Hret.
    destruct (Err (Install_call p filename)) as [e|].
    + left. injection Hret as <- <-. split; [reflexivity|].
      exists e. split; reflexivity.
    + right. split; [reflexivity|].
      destruct (awaitCompleted_returned_inv _ _ _ _ _ _ Hret)
        as (k & Hlt & Hstrays & Hcount & Hevent).
      exists k. repeat split; assumption.
Qed.

Lemma install_returns_only_on_close_or_completed_witness :
  let p := Sample.installer Sample.failing_daemon None
             (Sample.channel [Received Sample.properties_changed;
                              Received (Sample.completed 0);
                              Received (Sample.completed 3)] Closed) in
  (2 = 0 /\
   exists e,
     Err (InstallBundle_call p "/data/update.raucb" Sample.options) = Some e /\
     None = Some (fmt_Errorf "RAUC: Install(): " e))
  \/
  (Err (InstallBundle_call p "/data/update.raucb" Sample.options) = None /\
   exists k,
     k < 5 /\ strays (Conn_Signal (conn p)) k /\ 2 = S k /\
     (Conn_Signal (conn p) k = Closed \/
      exists signal,
        Conn_Signal (conn p) k = Received signal /\
        Name signal = interfaceForMember "Completed")).
Proof.
  intros p.
  destruct (install_returns_only_on_close_or_completed
              p "/data/update.raucb" Sample.options 5 None 2)
    as [Hbundle _].
  apply Hbundle. reflexivity.
Defined.

Lemma awaitCompleted_same_name_and_body p1 p2 ch1 ch2 iterations :
  object p1 = object p2 ->
  (forall i, same_name_and_body (ch1 i) (ch2 i)) ->
  forall n,
    awaitCompleted p1 ch1 iterations n = awaitCompleted p2 ch2 iterations n.
Proof.
  intros Hobj Hsame.
  induction iterations as [|rest IH]; intros n; [reflexivity|].
  simpl. specialize (Hsame n).
  destruct (ch1 n) as [s1| |], (ch2 n) as [s2| |];
    simpl in Hsame; try contradiction; try reflexivity.
  destruct Hsame as [-> ->].
  unfold GetLastError. rewrite Hobj, IH. reflexivity.
Qed.

(** X4.  The wait tells signals apart by name and reads nothing but the
    body: on two connections to the same object whose channels bring, one
    receive after the other, signals of the same name and body, whatever
    their sender and path, [InstallBundle] and [Install] end alike. *)
Theorem install_ignores_sender_and_path
    obj c1 c2 filename options iterations :
  (forall i, same_name_and_body (Conn_Signal c1 i) (Conn_Signal c2 i)) ->
  InstallBundle (mkInstaller c1 obj) filename options iterations
  = InstallBundle (mkInstaller c2 obj) filename options iterations
  /\
  Legacy.Install (mkInstaller c1 obj) filename iterations
  = Legacy.Install (mkInstaller c2 obj) filename iterations.
Proof.
  intros Hsame. unfold InstallBundle, Legacy.Install. cbn [object conn].
  split.
  - destruct (Err _); [reflexivity|].
    apply awaitCompleted_same_name_and_body; [reflexivity | exact Hsame].
  - destruct (Err _); [reflexivity|].
    apply awaitCompleted_same_name_and_body; [reflexivity | exact Hsame].
Qed.

Lemma install_ignores_sender_and_path_witness :
  let obj := Sample.failing_daemon in
  let c1 := mkConn (fun _ _ => obj) (fun _ => None)
              (fun _ => Received (Sample.completed 5)) in
  let c2 := mkConn (fun _ _ => obj) (fun _ => None)
              (fun _ => Received
                          (mkSignal ":1.99" "/somewhere/else"
                             (interfaceForMember "Completed") [VInt32 5])) in
  InstallBundle (mkInstaller c1 obj) "/data/update.raucb" Sample.options 1
  = InstallBundle (mkInstaller c2 obj) "/data/update.raucb" Sample.options 1
  /\
  Legacy.Install (mkInstaller c1 obj) "/data/update.raucb" 1
  = Legacy.Install (mkInstaller c2 obj) "/data/update.raucb" 1.
Proof.
  intros obj c1 c2.
  apply (install_ignores_sender_and_path obj c1 c2).
  intros i. split; reflexivity.
Defined.

Lemma install_undecodable_payload_witness :
  let p := Sample.installer Sample.failing_daemon None
             (Sample.channel
                [Received Sample.properties_changed;
                 Received (mkSignal ":1.7" "/"
                             (interfaceForMember "Completed") [])]
                Parked) in
  InstallBundle p "/data/update.raucb" Sample.options 2
  = Returned (Some length_mismatch) 2
  /\
  Legacy.Install p "/data/update.raucb" 2 = Returned (Some length_mismatch) 2.
Proof.
  intros p.
  destruct (install_undecodable_payload
              p "/data/update.raucb" Sample.options 1
              (mkSignal ":1.7" "/" (interfaceForMember "Completed") [])
              0%Z length_mismatch 2)
    as [Hbundle Hinstall].
  - apply strays_one.
  - reflexivity.
  - reflexivity.
  - reflexivity.
  - lia.
  - split; [apply Hbundle | apply Hinstall]; reflexivity.
Defined.

Lemma install_nonzero_code_last_error_unreadable_witness :
  let obj := Sample.daemon (fun _ _ => Sample.no_reply)
               (fun _ _ => (Variant_zero, Some Sample.unreachable)) in
  let p := Sample.installer obj None
             (Sample.channel [Received (Sample.completed (-1))] Parked) in
  InstallBundle p "/data/update.raucb" Sample.options 1
  = Returned (Some (fmt_Errorf "RAUC: GetLastError(): " Sample.unreachable)) 1
  /\
  Legacy.Install p "/data/update.raucb" 1
  = Returned (Some (fmt_Errorf "RAUC: GetLastError(): " Sample.unreachable)) 1.
Proof.
  intros obj p.
  destruct (install_nonzero_code_last_error_unreadable
              p "/data/update.raucb" Sample.options 0
              (Sample.completed (-1)) (-1)%Z Variant_zero
              Sample.unreachable 1)
    as [Hbundle Hinstall].
  - intros i Hi. lia.
  - reflexivity.
  - reflexivity.
  - reflexivity.
  - discriminate.
  - reflexivity.
  - lia.
  - split; [apply Hbundle | apply Hinstall]; reflexivity.
Defined.

(** ** More on slot status *)

Lemma store_elems_length {R : Type} (f : Value -> R + error) elems :
  forall stored,
    store_elems f elems = inl stored -> length stored = length elems.
Proof.
  induction elems as [|x rest IH]; intros stored Hstore; simpl in Hstore.
  - injection Hstore as <-. reflexivity.
  - destruct (f x); [|discriminate].
    destruct (store_elems f rest) as [rs|]; [|discriminate].
    injection Hstore as <-. simpl. f_equal. apply IH. reflexivity.
Qed.

Lemma store_elems_first_failure {R : Type} (f : Value -> R + error)
    good stored bad e rest :
  store_elems f good = inl stored ->
  f bad = inr e ->
  store_elems f (good ++ bad :: rest) = inr e.
Proof.
  revert stored. induction good as [|x good IH]; intros stored Hgood Hbad.
  - simpl. rewrite Hbad. reflexivity.
  - simpl in Hgood |- *.
    destruct (f x); [|discriminate].
    destruct (store_elems f good) as [rs|] eqn:Hrs; [|discriminate].
    rewrite (IH rs eq_refl Hbad). reflexivity.
Qed.

(** X7.  A [GetSlotStatus] reply with any number of well-formed entries,
    none included, decodes to one [SlotStatus] per entry and nil: the
    value at each position has the name and exactly the attribute map of
    the entry at that position. *)
Theorem GetSlotStatus_keeps_every_entry p
    (entries : list (string * gmap string Variant)) :
  BusObject_Call (object p) (interfaceForMember "GetSlotStatus") []
  = mkCall None
      [VSlice (map (fun '(name, attributes) => slot_entry name attributes)
                 entries)] ->
  exists status,
    GetSlotStatus p = (status, None) /\
    length status = length entries /\
    forall i name attributes,
      nth_error entries i = Some (name, attributes) ->
      exists slot,
        nth_error status i = Some slot /\
        SlotName slot = name /\ Status slot = attributes.
Proof.
  intros Hcall.
  exists (map (fun '(name, attributes) => mkSlotStatus name attributes)
            entries).
  split; [|split].
  - unfold GetSlotStatus, Call_Store. rewrite Hcall.
    cbn [Err CallBody Store1 store_slice].
    rewrite store_elems_slot_entries. reflexivity.
  - apply length_map.
  - intros i name attributes Hnth.
    exists (mkSlotStatus name attributes).
    rewrite nth_error_map, Hnth. repeat split.
Qed.

Lemma GetSlotStatus_keeps_every_entry_witness :
  let obj := Sample.daemon
               (fun _ _ =>
                  mkCall None
                    [VSlice
                       (map (fun '(name, attributes) =>
                               slot_entry name attributes)
                          [("rootfs.0", Sample.rootfs0);
                           ("rootfs.1", Sample.rootfs1);
                           ("appfs.0", ∅)])])
               (fun _ _ => (Variant_zero, None)) in
  exists status,
    GetSlotStatus (Sample.installer obj None (fun _ => Parked))
    = (status, None) /\
    length status = 3 /\
    forall i name attributes,
      nth_error [("rootfs.0", Sample.rootfs0);
                 ("rootfs.1", Sample.rootfs1);
                 ("appfs.0", ∅)] i = Some (name, attributes) ->
      exists slot,
        nth_error status i = Some slot /\
        SlotName slot = name /\ Status slot = attributes.
Proof.
  intros obj.
  apply (GetSlotStatus_keeps_every_entry
           (Sample.installer obj None (fun _ => Parked))
           [("rootfs.0", Sample.rootfs0);
            ("rootfs.1", Sample.rootfs1);
            ("appfs.0", ∅)]).
  reflexivity.
Defined.

(** An error of [GetSlotStatus] comes with no slots and carries the
    prefix. *)
Lemma GetSlotStatus_error_shape p status e :
  GetSlotStatus p = (status, Some e) ->
  status = [] /\ exists cause, e = fmt_Errorf "RAUC: GetSlotStatus(): " cause.
Proof.
  unfold GetSlotStatus.
  destruct (Call_Store _ _ _) as [stored [e0|]].
  - intros [= <- <-]. split; [reflexivity | exists e0; reflexivity].
  - discriminate.
Qed.

(** X8.  [GetSlotStatus] returns slots or an error, never both: with an
    error the slice is empty and the message starts with
    [RAUC: GetSlotStatus(): ]; with nil the call itself had no error and
    the slice has one value per element of the array in the reply. *)
Theorem GetSlotStatus_all_or_nothing p status err :
  GetSlotStatus p = (status, err) ->
  match err with
  | Some e =>
      status = [] /\
      exists cause, e = fmt_Errorf "RAUC: GetSlotStatus(): " cause
  | None =>
      exists elems,
        BusObject_Call (object p) (interfaceForMember "GetSlotStatus") []
        = mkCall None [VSlice elems] /\
        length status = length elems
  end.
Proof.
  unfold GetSlotStatus, Call_Store.
  destruct (BusObject_Call (object p) (interfaceForMember "GetSlotStatus") [])
    as [[e|] body]; cbn [Err CallBody].
  - intros [= <- <-]. split; [reflexivity | exists e; reflexivity].
  - unfold Store1.
    destruct body as [|v [|w body]];
      try (intros [= <- <-]; split;
           [reflexivity | eexists; reflexivity]).
    destruct (store_slice _ store_SlotStatus v) as [stored|e] eqn:Hstore.
    + intros [= <- <-].
      destruct v; try discriminate. simpl in Hstore.
      exists elems. split; [reflexivity|].
      apply (store_elems_length _ _ _ Hstore).
    + intros [= <- <-]. split; [reflexivity | exists e; reflexivity].
Qed.


Lemma GetSlotStatus_all_or_nothing_witness :
  (([] : list SlotStatus) = [] /\
   exists cause,
     fmt_Errorf "RAUC: GetSlotStatus(): " Sample.unreachable
     = fmt_Errorf "RAUC: GetSlotStatus(): " cause)
  /\
  exists elems,
    BusObject_Call Sample.slots_daemon (interfaceForMember "GetSlotStatus") []
    = mkCall None [VSlice elems] /\
    length [mkSlotStatus "rootfs.0" Sample.rootfs0;
            mkSlotStatus "rootfs.1" Sample.rootfs1] = length elems.
Proof.
  split.
  - apply (GetSlotStatus_all_or_nothing
             (Sample.installer Sample.absent_daemon None (fun _ => Parked))
             [] (Some (fmt_Errorf "RAUC: GetSlotStatus(): "
                         Sample.unreachable))).
    reflexivity.
  - apply (GetSlotStatus_all_or_nothing
             (Sample.installer Sample.slots_daemon None (fun _ => Parked))
             [mkSlotStatus "rootfs.0" Sample.rootfs0;
              mkSlotStatus "rootfs.1" Sample.rootfs1] None).
    reflexivity.
Defined.

(** X9.  One entry of the reply that does not decode fails the whole
    [GetSlotStatus] call with the error of that entry, wrapped; the
    well-formed entries in front of it are not returned. *)
Theorem GetSlotStatus_rejects_malformed_entry p
    (good : list (string * gmap string Variant)) bad e rest :
  store_SlotStatus bad = inr e ->
  BusObject_Call (object p) (interfaceForMember "GetSlotStatus") []
  = mkCall None
      [VSlice (map (fun '(name, attributes) => slot_entry name attributes)
                 good ++ bad :: rest)] ->
  GetSlotStatus p = ([], Some (fmt_Errorf "RAUC: GetSlotStatus(): " e)).
Proof.
  intros Hbad Hcall. unfold GetSlotStatus, Call_Store. rewrite Hcall.
  cbn [Err CallBody Store1 store_slice].
  rewrite (store_elems_first_failure _ _ _ _ _ _
             (store_elems_slot_entries good) Hbad).
  reflexivity.
Qed.

Lemma GetSlotStatus_rejects_malformed_entry_witness :
  let obj := Sample.daemon
               (fun _ _ =>
                  mkCall None
                    [VSlice [slot_entry "rootfs.0" Sample.rootfs0;
                             VSlice [VString "rootfs.1"];
                             slot_entry "appfs.0" ∅]])
               (fun _ _ => (Variant_zero, None)) in
  GetSlotStatus (Sample.installer obj None (fun _ => Parked))
  = ([], Some (fmt_Errorf "RAUC: GetSlotStatus(): "
                 (field_count_mismatch 1 2))).
Proof.
  intros obj.
  apply (GetSlotStatus_rejects_malformed_entry
           (Sample.installer obj None (fun _ => Parked))
           [("rootfs.0", Sample.rootfs0)] (VSlice [VString "rootfs.1"])
           (field_count_mismatch 1 2) [slot_entry "appfs.0" ∅]).
  - reflexivity.
  - reflexivity.
Defined.

(** ** Info and Mark *)

(** X10.  [Info] and [Mark] hand over the two strings of a two-string
    reply with nil.  When they return an error both strings are empty and
    the message starts with the name of the method; an error of the call
    itself comes first, whatever body the reply has. *)
Theorem Info_and_Mark_all_or_nothing p :
  (forall filename,
     (forall a b,
        BusObject_Call (object p) (interfaceForMember "Info")
          [VString filename]
        = mkCall None [VString a; VString b] ->
        Info p filename = (a, b, None))
     /\
     (forall e body,
        BusObject_Call (object p) (interfaceForMember "Info")
          [VString filename]
        = mkCall (Some e) body ->
        Info p filename = ("", "", Some (fmt_Errorf "RAUC: Info(): " e)))
     /\
     (forall compatible version e,
        Info p filename = (compatible, version, Some e) ->
        compatible = "" /\ version = "" /\
        exists cause, e = fmt_Errorf "RAUC: Info(): " cause))
  /\
  (forall state slotIdentifier,
     (forall a b,
        BusObject_Call (object p) (interfaceForMember "Mark")
          [VString state; VString slotIdentifier]
        = mkCall None [VString a; VString b] ->
        Mark p state slotIdentifier = (a, b, None))
     /\
     (forall e body,
        BusObject_Call (object p) (interfaceForMember "Mark")
          [VString state; VString slotIdentifier]
        = mkCall (Some e) body ->
        Mark p state slotIdentifier
        = ("", "", Some (fmt_Errorf "RAUC: Mark(): " e)))
     /\
     (forall slotName message e,
        Mark p state slotIdentifier = (slotName, message, Some e) ->
        slotName = "" /\ message = "" /\
        exists cause, e = fmt_Errorf "RAUC: Mark(): " cause)).
Proof.
  split.
  - intros filename. unfold Info, Call_Store. split; [|split].
    + intros a b ->. reflexivity.
    + intros e body ->. reflexivity.
    + intros compatible version e.
      destruct (BusObject_Call _ _ _) as [[e0|] body]; cbn [Err CallBody].
      * intros [= <- <- <-]. repeat split. exists e0. reflexivity.
      * destruct (Store2_string body "" "") as [[a b] [e1|]].
        -- intros [= <- <- <-]. repeat split. exists e1. reflexivity.
        -- discriminate.
  - intros state slotIdentifier. unfold Mark, Call_Store. split; [|split].
    + intros a b ->. reflexivity.
    + intros e body ->. reflexivity.
    + intros slotName message e.
      destruct (BusObject_Call _ _ _) as [[e0|] body]; cbn [Err CallBody].
      * intros [= <- <- <-]. repeat split. exists e0. reflexivity.
      * destruct (Store2_string body "" "") as [[a b] [e1|]].
        -- intros [= <- <- <-]. repeat split. exists e1. reflexivity.
        -- discriminate.
Qed.

Lemma Info_and_Mark_all_or_nothing_witness :
  let obj := Sample.daemon
               (fun method _ =>
                  if String.eqb method (interfaceForMember "Info")
                  then mkCall None [VString "board-a"; VString "2024.1"]
                  else mkCall (Some Sample.unreachable)
                         [VString "rootfs.1"; VString "marked good"])
               (fun _ _ => (Variant_zero, None)) in
  let p := Sample.installer obj None (fun _ => Parked) in
  Info p "/data/update.raucb" = ("board-a", "2024.1", None)
  /\
  Mark p "good" "booted"
  = ("", "", Some (fmt_Errorf "RAUC: Mark(): " Sample.unreachable)).
Proof.
  intros obj p.
  destruct (Info_and_Mark_all_or_nothing p) as [HInfo HMark].
  split.
  - destruct (HInfo "/data/update.raucb") as [Hok _].
    apply Hok. reflexivity.
  - destruct (HMark "good" "booted") as (_ & Hfail & _).
    apply (Hfail _ [VString "rootfs.1"; VString "marked good"]).
    reflexivity.
Defined.

(** ** More on progress *)

(** X11.  Whenever [GetProgress] of the current revision returns an error
    it returns with it the percentage -1, the empty message and the
    nesting depth -1, and the message of the error starts with one of the
    two prefixes, for the failed read or for the failed decoding. *)
Theorem GetProgress_error_sentinels p now pct msg depth e :
  GetProgress p now = (pct, msg, depth, Some e) ->
  pct = (-1)%Z /\ msg = "" /\ depth = (-1)%Z /\
  exists cause,
    e = fmt_Errorf "RAUC: GetProperty(Progress): " cause \/
    e = fmt_Errorf "RAUC: Cannot store result: " cause.
Proof.
  unfold GetProgress.
  destruct (BusObject_GetProperty (object p) now
              (interfaceForMember "Progress")) as [variant [e0|]].
  - intros [= <- <- <- <-]. repeat split. exists e0. left. reflexivity.
  - cbv zeta.
    destruct (Store1 _ [Variant_Value variant] progressResponse_zero)
      as [response [e1|]].
    + intros [= <- <- <- <-]. repeat split. exists e1. right. reflexivity.
    + discriminate.
Qed.

Lemma GetProgress_error_sentinels_witness :
  (-1)%Z = (-1)%Z /\ "" = "" /\ (-1)%Z = (-1)%Z /\
  exists cause,
    fmt_Errorf "RAUC: Cannot store result: " (field_count_mismatch 2 3)
    = fmt_Errorf "RAUC: GetProperty(Progress): " cause \/
    fmt_Errorf "RAUC: Cannot store result: " (field_count_mismatch 2 3)
    = fmt_Errorf "RAUC: Cannot store result: " cause.
Proof.
  apply (GetProgress_error_sentinels
           (Sample.installer
              (Sample.progress_daemon (VSlice [VInt32 42; VString "half"]))
              None (fun _ => Parked)) 0).
  reflexivity.
Defined.

Lemma GetProgress_decodes_aggregate_witness :
  GetProgress
    (Sample.installer
       (Sample.progress_daemon (VSlice [VInt32 100; VString ""; VInt32 0]))
       None (fun _ => Parked)) 3
  = (100%Z, "", 0%Z, None).
Proof.
  apply (GetProgress_decodes_aggregate _ 3 100%Z "" 0%Z "").
  reflexivity.
Defined.

Lemma GetProgress_decode_error_witness :
  let p := Sample.installer
             (Sample.progress_daemon (VSlice [VInt32 42; VString "half"]))
             None (fun _ => Parked) in
  GetProgress p 0
  = ((-1)%Z, "", (-1)%Z,
     Some (fmt_Errorf "RAUC: Cannot store result: " (field_count_mismatch 2 3)))
  /\
  forall e',
    fmt_Errorf "RAUC: Cannot store result: " (field_count_mismatch 2 3)
    <> fmt_Errorf "RAUC: GetProperty(Progress): " e'.
Proof.
  intros p.
  apply (GetProgress_decode_error p 0
           (mkVariant (VSlice [VInt32 42; VString "half"]) "")
           progressResponse_zero (field_count_mismatch 2 3)).
  - reflexivity.
  - reflexivity.
Defined.

Lemma Legacy_GetProgress_ignores_value_witness :
  Legacy.GetProgress
    (Sample.installer
       (Sample.progress_daemon (VSlice [VInt32 100; VString "done"; VInt32 0]))
       None (fun _ => Parked)) 0
  = (0%Z, "", 0%Z, None).
Proof.
  apply (Legacy_GetProgress_ignores_value _ 0
           (mkVariant (VSlice [VInt32 100; VString "done"; VInt32 0]) "")).
  reflexivity.
Defined.

(** ** stripQuotes *)

Lemma append_empty_r (s : string) : s +:+ "" = s.
Proof.
  induction s as [|c s IH]; [reflexivity|].
  change (String c (s +:+ "") = String c s). rewrite IH. reflexivity.
Qed.

Lemma append_assoc (a b c : string) : (a +:+ b) +:+ c = a +:+ b +:+ c.
Proof.
  induction a as [|x a IH]; [reflexivity|].
  change (String x ((a +:+ b) +:+ c) = String x (a +:+ b +:+ c)).
  rewrite IH. reflexivity.
Qed.

Lemma substring_0_length (s : string) :
  substring 0 (String.length s) s = s.
Proof.
  induction s as [|c s IH]; simpl; [reflexivity | rewrite IH; reflexivity].
Qed.

Lemma substring_0_append (a b : string) :
  substring 0 (String.length a) (a +:+ b) = a.
Proof.
  induction a as [|c a IH]; simpl.
  - destruct b; reflexivity.
  - rewrite IH. reflexivity.
Qed.

Lemma substring_skip_append (a b : string) :
  substring (String.length a) (String.length b) (a +:+ b) = b.
Proof.
  induction a as [|c a IH]; simpl.
  - apply substring_0_length.
  - exact IH.
Qed.

Lemma length_append (a b : string) :
  String.length (a +:+ b) = String.length a + String.length b.
Proof.
  induction a as [|c a IH]; simpl; [reflexivity | rewrite IH; reflexivity].
Qed.

(** A string is its first [n] bytes followed by the rest. *)
Lemma substring_split (s : string) :
  forall n,
    n <= String.length s ->
    s = substring 0 n s +:+ substring n (String.length s - n) s.
Proof.
  induction s as [|c s IH]; intros [|n] Hn; simpl in *; try lia.
  - reflexivity.
  - rewrite substring_0_length. reflexivity.
  - change (String c s
            = String c (substring 0 n s
                        +:+ substring n (String.length s - n) s)).
    f_equal. apply IH. lia.
Qed.

Lemma length_substring (s : string) :
  forall n m,
    n + m <= String.length s -> String.length (substring n m s) = m.
Proof.
  induction s as [|c s IH]; intros [|n] [|m] Hlen; simpl in *;
    try lia; try reflexivity.
  - f_equal. apply (IH 0 m). lia.
  - apply (IH n 0). lia.
  - apply (IH n (S m)). lia.
Qed.

Lemma TrimSuffix_append (s suffix : string) :
  cmd.strings_TrimSuffix (s +:+ suffix) suffix = s.
Proof.
  unfold cmd.strings_TrimSuffix, cmd.strings_HasSuffix.
  rewrite length_append.
  replace (String.length s + String.length suffix - String.length suffix)
    with (String.length s) by lia.
  rewrite substring_skip_append, String.eqb_refl, substring_0_append.
  replace (String.length suffix <=? String.length s + String.length suffix)%nat
    with true by (symmetry; apply Nat.leb_le; lia).
  reflexivity.
Qed.

Lemma TrimPrefix_append (prefix s : string) :
  cmd.strings_TrimPrefix (prefix +:+ s) prefix = s.
Proof.
  unfold cmd.strings_TrimPrefix, cmd.strings_HasPrefix.
  rewrite length_append.
  replace (String.length prefix + String.length s - String.length prefix)
    with (String.length s) by lia.
  rewrite substring_0_append, String.eqb_refl, substring_skip_append.
  replace (String.length prefix <=? String.length prefix + String.length s)%nat
    with true by (symmetry; apply Nat.leb_le; lia).
  reflexivity.
Qed.

(** What [TrimSuffix] and [TrimPrefix] take off is the suffix, or the
    prefix, itself. *)
Lemma TrimSuffix_spec (s suffix : string) :
  s = cmd.strings_TrimSuffix s suffix
      +:+ (if cmd.strings_HasSuffix s suffix then suffix else "").
Proof.
  unfold cmd.strings_TrimSuffix.
  destruct (cmd.strings_HasSuffix s suffix) eqn:Hsuffix.
  - unfold cmd.strings_HasSuffix in Hsuffix.
    apply andb_prop in Hsuffix as [Hlen Heq].
    apply Nat.leb_le in Hlen. apply String.eqb_eq in Heq.
    remember (String.length s - String.length suffix) as n eqn:Hn in *.
    assert (Hls : String.length suffix = String.length s - n) by lia.
    rewrite Hls in Heq. rewrite <- Heq.
    apply substring_split. lia.
  - symmetry. apply append_empty_r.
Qed.

Lemma TrimPrefix_spec (s prefix : string) :
  s = (if cmd.strings_HasPrefix s prefix then prefix else "")
      +:+ cmd.strings_TrimPrefix s prefix.
Proof.
  unfold cmd.strings_TrimPrefix.
  destruct (cmd.strings_HasPrefix s prefix) eqn:Hprefix.
  - unfold cmd.strings_HasPrefix in Hprefix.
    apply andb_prop in Hprefix as [Hlen Heq].
    apply Nat.leb_le in Hlen. apply String.eqb_eq in Heq.
    rewrite <- Heq at 1.
    apply substring_split. exact Hlen.
  - reflexivity.
Qed.

(** X16.  [stripQuotes] undoes one layer of double quotes: a string put
    between two double quotes comes back as it was, whatever it contains,
    quotes included. *)
Theorem stripQuotes_quoted (s : string) :
  cmd.stripQuotes (cmd.quote +:+ s +:+ cmd.quote) = s /\
  cmd.stripQuotes (Sample.quoted s) = s.
Proof.
  assert (H : cmd.stripQuotes (cmd.quote +:+ s +:+ cmd.quote) = s).
  { unfold cmd.stripQuotes.
    replace (cmd.quote +:+ s +:+ cmd.quote)
      with ((cmd.quote +:+ s) +:+ cmd.quote) by reflexivity.
    rewrite TrimSuffix_append. apply TrimPrefix_append. }
  split; [exact H | exact H].
Qed.

(** X17.  [stripQuotes] takes off at most one double quote at the end and
    then at most one at the start and touches nothing else: the argument
    is the result with those quotes put back.  A string with no quote at
    either end is returned as it is, and the string that is one double
    quote comes back empty. *)
Theorem stripQuotes_takes_one_quote_per_end (s : string) :
  s = (if cmd.strings_HasPrefix (cmd.strings_TrimSuffix s cmd.quote) cmd.quote
       then cmd.quote else "")
      +:+ cmd.stripQuotes s
      +:+ (if cmd.strings_HasSuffix s cmd.quote then cmd.quote else "")
  /\
  String.length s - 2 <= String.length (cmd.stripQuotes s) <= String.length s
  /\
  (cmd.strings_HasPrefix s cmd.quote = false ->
   cmd.strings_HasSuffix s cmd.quote = false ->
   cmd.stripQuotes s = s)
  /\
  cmd.stripQuotes cmd.quote = "".
Proof.
  assert (Hspec :
    s = (if cmd.strings_HasPrefix (cmd.strings_TrimSuffix s cmd.quote) cmd.quote
         then cmd.quote else "")
        +:+ cmd.stripQuotes s
        +:+ (if cmd.strings_HasSuffix s cmd.quote then cmd.quote else "")).
  { unfold cmd.stripQuotes. cbv zeta.
    rewrite <- append_assoc.
    rewrite <- (TrimPrefix_spec (cmd.strings_TrimSuffix s cmd.quote)).
    apply TrimSuffix_spec. }
  split; [exact Hspec|]. split; [|split].
  - apply (f_equal String.length) in Hspec.
    rewrite !length_append in Hspec.
    destruct (cmd.strings_HasPrefix _ _), (cmd.strings_HasSuffix _ _);
      simpl in Hspec; lia.
  - intros Hprefix Hsuffix. unfold cmd.stripQuotes, cmd.strings_TrimSuffix.
    rewrite Hsuffix. unfold cmd.strings_TrimPrefix. rewrite Hprefix.
    reflexivity.
  - reflexivity.
Qed.

Lemma stripQuotes_takes_one_quote_per_end_witness :
  cmd.stripQuotes "/dev/mmcblk0p2" = "/dev/mmcblk0p2".
Proof.
  destruct (stripQuotes_takes_one_quote_per_end "/dev/mmcblk0p2")
    as (_ & _ & Hsame & _).
  apply Hsame; reflexivity.
Defined.

Lemma count_app kind (a b : list cmd.Event) :
  count kind (a ++ b)%list = count kind a + count kind b.
Proof.
  unfold count. rewrite List.filter_app, length_app. reflexivity.
Qed.

(** ** The loop of cmd/copy-from-other-slot *)

Ltac visit_cases :=
  unfold cmd.visit; cbv zeta;
  repeat match goal with
         | |- context [match ?x with _ => _ end] => destruct x eqn:?
         end.

Ltac count_events :=
  rewrite ?count_app; unfold count in *;
  cbn [List.filter length is_cleanup is_mount is_unmount is_error_log
       forallb andb].

Lemma visit_balanced h f status trace defers :
  balanced 0 trace defers ->
  flow_balanced (cmd.visit h f status trace defers).
Proof.
  intros (Hclean & Hdefers & Hle & Hge).
  visit_cases; unfold flow_balanced, balanced; count_events;
    repeat split; try assumption; try lia.
Qed.

Lemma visit_errors h f status trace defers :
  count is_error_log trace = 0 ->
  flow_errors (cmd.visit h f status trace defers).
Proof.
  intros Hnone.
  visit_cases; unfold flow_errors;
    try (count_events; lia);
    (eexists _, _, _; split; [reflexivity|]; count_events; lia).
Qed.

Lemma visit_ineligible h f status trace defers :
  ~ eligible f status ->
  cmd.visit h f status trace defers = cmd.Continue trace defers.
Proof.
  intros Hnot. unfold cmd.visit.
  destruct (Status status !! "class") as [s|] eqn:Hclass; [|reflexivity].
  destruct (String.eqb (cmd.stripQuotes (Variant_String s)) (cmd.classFlag f))
    eqn:Heq; [|reflexivity].
  cbn [negb].
  destruct (Status status !! "state") as [s'|] eqn:Hstate; [|reflexivity].
  cbv zeta.
  destruct (String.eqb (cmd.stripQuotes (Variant_String s')) "booted")
    eqn:Hbooted; [reflexivity|].
  exfalso. apply Hnot. split.
  - exists s. split; [exact Hclass | apply String.eqb_eq, Heq].
  - exists s'. split; [exact Hstate | apply String.eqb_neq, Hbooted].
Qed.

Lemma visit_mounts h f status statuses trace defers :
  In status statuses ->
  mounts_eligible h f statuses trace ->
  mounts_eligible h f statuses (flow_trace (cmd.visit h f status trace defers)).
Proof.
  intros Hin Hold.
  destruct (Status status !! "class") as [s|] eqn:Hclass;
    [|unfold cmd.visit; rewrite Hclass; exact Hold].
  destruct (String.eqb (cmd.stripQuotes (Variant_String s)) (cmd.classFlag f))
    eqn:Heq; [|unfold cmd.visit; rewrite Hclass, Heq; exact Hold].
  destruct (Status status !! "state") as [s'|] eqn:Hstate;
    [|unfold cmd.visit; rewrite Hclass, Heq, Hstate; exact Hold].
  destruct (String.eqb (cmd.stripQuotes (Variant_String s')) "booted")
    eqn:Hbooted;
    [unfold cmd.visit; rewrite Hclass, Heq, Hstate; cbn [negb]; cbv zeta;
     rewrite Hbooted; exact Hold|].
  assert (Helig : eligible f status).
  { split.
    - exists s. split; [assumption | apply String.eqb_eq, Heq].
    - exists s'. split; [assumption | apply String.eqb_neq, Hbooted]. }
  destruct (device_of h status) as [device|] eqn:Hdev.
  - unfold device_of in Hdev.
    unfold cmd.visit. rewrite Hclass, Heq, Hstate. cbn [negb]. cbv zeta.
    rewrite Hbooted.
    destruct (match Status status !! "device" with
              | Some v => Some (Variant_String v)
              | None => cmd.zero_Variant_String h
              end) as [rendered|] eqn:Hrendered; [|discriminate].
    simpl in Hdev. injection Hdev as Hdev.
    rewrite Hdev.
    repeat match goal with
           | |- context [match ?x with _ => _ end] => destruct x eqn:?
           end;
      cbn [flow_trace]; intros source target fstype Hmount;
      rewrite ?in_app_iff in Hmount; cbn [In] in Hmount;
      repeat match type of Hmount with
             | _ \/ _ => destruct Hmount as [Hmount|Hmount]
             end;
      try discriminate; try contradiction;
      try (apply (Hold _ _ _ Hmount));
      injection Hmount as <- <- <-;
      (split; [reflexivity|]; split; [reflexivity|];
       exists status; unfold device_of; rewrite Hrendered; simpl;
       rewrite Hdev; repeat split; try assumption;
       destruct Helig; assumption).
  - unfold device_of in Hdev.
    unfold cmd.visit. rewrite Hclass, Heq, Hstate. cbn [negb]. cbv zeta.
    rewrite Hbooted.
    destruct (match Status status !! "device" with
              | Some v => Some (Variant_String v)
              | None => cmd.zero_Variant_String h
              end) as [rendered|] eqn:Hrendered; [discriminate|].
    exact Hold.
Qed.

Lemma visit_all_balanced h f statuses :
  forall trace defers,
    balanced 0 trace defers ->
    flow_balanced (cmd.visit_all h f statuses trace defers).
Proof.
  induction statuses as [|status rest IH]; intros trace defers Hbal.
  - exact Hbal.
  - simpl. pose proof (visit_balanced h f status trace defers Hbal) as Hstep.
    destruct (cmd.visit h f status trace defers); try exact Hstep.
    apply IH, Hstep.
Qed.

Lemma visit_all_errors h f statuses :
  forall trace defers,
    count is_error_log trace = 0 ->
    flow_errors (cmd.visit_all h f statuses trace defers).
Proof.
  induction statuses as [|status rest IH]; intros trace defers Hnone.
  - exact Hnone.
  - simpl. pose proof (visit_errors h f status trace defers Hnone) as Hstep.
    destruct (cmd.visit h f status trace defers); try exact Hstep.
    apply IH, Hstep.
Qed.

Lemma visit_all_mounts h f all statuses :
  forall trace defers,
    (forall status, In status statuses -> In status all) ->
    mounts_eligible h f all trace ->
    mounts_eligible h f all
      (flow_trace (cmd.visit_all h f statuses trace defers)).
Proof.
  induction statuses as [|status rest IH]; intros trace defers Hsub Hold.
  - exact Hold.
  - simpl.
    pose proof (visit_mounts h f status all trace defers
                  (Hsub status (or_introl eq_refl)) Hold) as Hstep.
    destruct (cmd.visit h f status trace defers); try exact Hstep.
    apply IH; [|exact Hstep].
    intros s Hs. apply Hsub. right. exact Hs.
Qed.

Lemma visit_all_ineligible h f statuses :
  forall trace defers,
    Forall (fun status => ~ eligible f status) statuses ->
    cmd.visit_all h f statuses trace defers = cmd.Continue trace defers.
Proof.
  induction statuses as [|status rest IH]; intros trace defers Hnone.
  - reflexivity.
  - simpl. inversion Hnone as [|? ? Hhead Htail]; subst.
    rewrite (visit_ineligible _ _ _ _ _ Hhead). apply IH, Htail.
Qed.

Lemma visit_all_app h f before after :
  forall trace defers,
    cmd.visit_all h f (before ++ after) trace defers
    = match cmd.visit_all h f before trace defers with
      | cmd.Continue trace defers => cmd.visit_all h f after trace defers
      | stopped => stopped
      end.
Proof.
  induction before as [|status rest IH]; intros trace defers.
  - reflexivity.
  - simpl. destruct (cmd.visit h f status trace defers); try reflexivity.
    apply IH.
Qed.

(** In a cleanup there is neither a mount nor an error log. *)
Lemma cleanup_only defers :
  forallb is_cleanup defers = true ->
  count is_mount defers = 0 /\ count is_error_log defers = 0 /\
  forall source target fstype, ~ In (cmd.Mount source target fstype) defers.
Proof.
  induction defers as [|e defers IH]; intros Hall.
  - repeat split. intros ? ? ? [].
  - simpl in Hall. apply andb_prop in Hall as [He Hrest].
    destruct (IH Hrest) as (Hm & Herr & Hin).
    unfold count in *.
    destruct e; try discriminate; simpl; repeat split; try assumption;
      intros source target' fstype [Heq|Hmount];
      try discriminate; apply (Hin _ _ _ Hmount).
Qed.

Lemma visit_obliging h f status device trace defers :
  eligible f status ->
  device_of h status = Some device ->
  obliging h ->
  cmd.visit h f status trace defers
  = cmd.Continue
      (trace ++
       [cmd.Log cmd.InfoLevel [("device", device)] "Device path for mount";
        cmd.MkdirAll (cmd.mountPointFlag f);
        cmd.Mount device (cmd.mountPointFlag f) "squashfs";
        cmd.Log cmd.InfoLevel
          [("device", device); ("mountPoint", cmd.mountPointFlag f)]
          "Successfully mounted";
        cmd.Open (cmd.mountPointFlag f +:+ cmd.fromFlag f);
        cmd.OpenFile (cmd.toFlag f);
        cmd.Copy (cmd.toFlag f) (cmd.mountPointFlag f +:+ cmd.fromFlag f);
        cmd.Log cmd.InfoLevel
          [("to", cmd.toFlag f); ("from", cmd.fromFlag f);
           ("class", cmd.classFlag f)]
          "Successfully copied"])
      ([cmd.Close (cmd.toFlag f);
        cmd.Close (cmd.mountPointFlag f +:+ cmd.fromFlag f);
        cmd.Unmount (cmd.mountPointFlag f)] ++ defers).
Proof.
  intros [(s & Hclass & Hwanted) (s' & Hstate & Hbooted)] Hdev
    (Hmkdir & Hmount & Hopen & Hopenfile & Hcopy).
  unfold device_of in Hdev. unfold cmd.visit.
  rewrite Hclass, Hstate.
  apply String.eqb_eq in Hwanted. apply String.eqb_neq in Hbooted.
  rewrite Hwanted. cbn [negb]. cbv zeta. rewrite Hbooted.
  destruct (match Status status !! "device" with
            | Some v => Some (Variant_String v)
            | None => cmd.zero_Variant_String h
            end) as [rendered|]; [|discriminate].
  simpl in Hdev. injection Hdev as ->.
  rewrite Hmount, Hopen, Hopenfile, Hcopy.
  destruct (cmd.os_MkdirAll h _ _) as [| |e] eqn:Hres;
    [| |exfalso; exact (Hmkdir _ _ _ Hres)];
    rewrite <- !app_assoc; reflexivity.
Qed.

Lemma balanced_start : balanced 0 [] [].
Proof. repeat split; reflexivity || (simpl; lia). Qed.

Lemma mounts_eligible_start h f statuses : mounts_eligible h f statuses [].
Proof. intros ? ? ? []. Qed.

(** The three ways [main] ends once the slots have been read. *)
Lemma main_after_slots h f c statuses :
  (String.eqb (cmd.toFlag f) "" || String.eqb (cmd.fromFlag f) "") = false ->
  cmd.SystemBus h = inl c ->
  GetSlotStatus (mkInstaller c (Conn_Object c dbusInterface "/"))
  = (statuses, None) ->
  cmd.main h f
  = ((flow_trace (cmd.visit_all h f statuses [] [])
      ++ flow_defers (cmd.visit_all h f statuses [] []))%list,
     match cmd.visit_all h f statuses [] [] with
     | cmd.Panic _ _ => cmd.Crash
     | _ => cmd.Exit 0
     end).
Proof.
  intros Hflags Hbus Hslots. unfold cmd.main.
  rewrite Hflags, Hbus. cbn [InstallerNew]. rewrite Hslots.
  destruct (cmd.visit_all h f statuses [] []); reflexivity.
Qed.

(** Unless the slots have been read, [main] does one thing and exits
    with status 1. *)
Lemma main_cases h f :
  ((cmd.toFlag f = "" \/ cmd.fromFlag f = "") /\
   cmd.main h f = ([cmd.FlagUsage], cmd.Exit 1))
  \/
  (exists err,
     cmd.SystemBus h = inr err /\
     cmd.main h f
     = ([cmd.Log cmd.FatalLevel [("error", Error err)] "Cannot initialize"],
        cmd.Exit 1))
  \/
  (exists c cause,
     cmd.SystemBus h = inl c /\
     GetSlotStatus (mkInstaller c (Conn_Object c dbusInterface "/"))
     = ([], Some (fmt_Errorf "RAUC: GetSlotStatus(): " cause)) /\
     cmd.main h f
     = ([cmd.Log cmd.FatalLevel
           [("error", "RAUC: GetSlotStatus(): " +:+ Error cause)]
           "Cannot get slot statuses"],
        cmd.Exit 1))
  \/
  (exists c statuses,
     (String.eqb (cmd.toFlag f) "" || String.eqb (cmd.fromFlag f) "") = false /\
     cmd.SystemBus h = inl c /\
     GetSlotStatus (mkInstaller c (Conn_Object c dbusInterface "/"))
     = (statuses, None)).
Proof.
  unfold cmd.main.
  destruct (String.eqb (cmd.toFlag f) "") eqn:Hto.
  { left. split; [left; apply String.eqb_eq, Hto | reflexivity]. }
  destruct (String.eqb (cmd.fromFlag f) "") eqn:Hfrom.
  { left. split; [right; apply String.eqb_eq, Hfrom | reflexivity]. }
  right. cbn [orb].
  destruct (cmd.SystemBus h) as [c|err].
  - right. cbn [InstallerNew].
    destruct (GetSlotStatus (mkInstaller c (Conn_Object c dbusInterface "/")))
      as [statuses [e|]] eqn:Hslots.
    + left.
      destruct (GetSlotStatus_error_shape _ _ _ Hslots)
        as [-> [cause ->]].
      exists c, cause. repeat split. exact Hslots.
    + right. exists c, statuses. repeat split; assumption.
  - left. exists err. split; reflexivity.
Qed.

(** X18.  Whatever [main] mounts, it mounts as squashfs on the mount point
    of the flags, after the slots have been read from the daemon, and it
    is the device of a slot in that list whose class reads as the wanted
    class and whose state does not read as booted: the booted slot and
    slots of other classes are never mounted. *)
Theorem main_mounts_only_eligible_slots h f source target fstype :
  In (cmd.Mount source target fstype) (fst (cmd.main h f)) ->
  exists c statuses,
    cmd.SystemBus h = inl c /\
    GetSlotStatus (mkInstaller c (Conn_Object c dbusInterface "/"))
    = (statuses, None) /\
    target = cmd.mountPointFlag f /\ fstype = "squashfs" /\
    exists status,
      In status statuses /\ eligible f status /\
      device_of h status = Some source.
Proof.
  intros Hin.
  destruct (main_cases h f)
    as [[_ Hmain]|[(err & _ & Hmain)|[(c & cause & _ & _ & Hmain)
       |(c & statuses & Hflags & Hbus & Hslots)]]];
    try (rewrite Hmain in Hin; cbn in Hin; destruct Hin as [Hin|[]];
         discriminate).
  rewrite (main_after_slots _ _ _ _ Hflags Hbus Hslots) in Hin.
  cbn [fst] in Hin.
  exists c, statuses. split; [exact Hbus|]. split; [exact Hslots|].
  pose proof (visit_all_mounts h f statuses statuses [] []
                (fun _ H => H) (mounts_eligible_start h f statuses)) as Hok.
  pose proof (visit_all_balanced h f statuses [] [] balanced_start) as Hbal.
  apply in_app_iff in Hin as [Hin|Hin].
  - exact (Hok _ _ _ Hin).
  - exfalso.
    assert (Hclean : forallb is_cleanup
                       (flow_defers (cmd.visit_all h f statuses [] [])) = true).
    { destruct (cmd.visit_all h f statuses [] []);
        destruct Hbal as (_ & Hc & _); exact Hc. }
    destruct (cleanup_only _ Hclean) as (_ & _ & Hno).
    exact (Hno _ _ _ Hin).
Qed.

(** X20.  [main] logs at most one error.  After it nothing but the
    deferred cleanup follows, the slots behind the failing one are not
    visited, and the process still ends with status 0. *)
Theorem main_stops_at_first_error h f :
  count is_error_log (fst (cmd.main h f)) = 0
  \/
  exists before fields msg cleanup,
    fst (cmd.main h f)
    = (before ++ cmd.Log cmd.ErrorLevel fields msg :: cleanup)%list /\
    count is_error_log before = 0 /\
    forallb is_cleanup cleanup = true /\
    snd (cmd.main h f) = cmd.Exit 0.
Proof.
  destruct (main_cases h f)
    as [[_ Hmain]|[(err & _ & Hmain)|[(c & cause & _ & _ & Hmain)
       |(c & statuses & Hflags & Hbus & Hslots)]]];
    try (rewrite Hmain; left; reflexivity).
  rewrite (main_after_slots _ _ _ _ Hflags Hbus Hslots). cbn [fst snd].
  pose proof (visit_all_balanced h f statuses [] [] balanced_start) as Hbal.
  pose proof (visit_all_errors h f statuses [] [] eq_refl) as Herr.
  destruct (cmd.visit_all h f statuses [] []) as [t d|t d|t d];
    cbn [flow_trace flow_defers flow_balanced flow_errors] in *;
    destruct Hbal as (_ & Hd & _).
  - left. rewrite count_app, Herr.
    destruct (cleanup_only _ Hd) as (_ & -> & _). reflexivity.
  - right. destruct Herr as (before & fields & msg & -> & Hnone).
    exists before, fields, msg, d.
    rewrite <- app_assoc. repeat split; assumption.
  - left. rewrite count_app, Herr.
    destruct (cleanup_only _ Hd) as (_ & -> & _). reflexivity.
Qed.

(** X21.  [main] ends with status 1 in three cases only, and has then
    done a single thing: printed the usage because [-to] or [-from] is
    empty, or logged the fatal error of the bus connection, or logged the
    fatal, wrapped error of [GetSlotStatus].  No directory, mount or file
    has been touched. *)
Theorem main_exit_1_touches_nothing h f :
  snd (cmd.main h f) = cmd.Exit 1 ->
  ((cmd.toFlag f = "" \/ cmd.fromFlag f = "") /\
   fst (cmd.main h f) = [cmd.FlagUsage])
  \/
  (exists err,
     cmd.SystemBus h = inr err /\
     fst (cmd.main h f)
     = [cmd.Log cmd.FatalLevel [("error", Error err)] "Cannot initialize"])
  \/
  (exists c cause,
     cmd.SystemBus h = inl c /\
     GetSlotStatus (mkInstaller c (Conn_Object c dbusInterface "/"))
     = ([], Some (fmt_Errorf "RAUC: GetSlotStatus(): " cause)) /\
     fst (cmd.main h f)
     = [cmd.Log cmd.FatalLevel
          [("error", "RAUC: GetSlotStatus(): " +:+ Error cause)]
          "Cannot get slot statuses"]).
Proof.
  intros Hexit.
  destruct (main_cases h f)
    as [[Hflag Hmain]|[(err & Hbus & Hmain)|[(c & cause & Hbus & Hslots & Hmain)
       |(c & statuses & Hflags & Hbus & Hslots)]]].
  - left. rewrite Hmain. split; [exact Hflag | reflexivity].
  - right. left. exists err. rewrite Hmain. split; [exact Hbus | reflexivity].
  - right. right. exists c, cause. rewrite Hmain. repeat split; assumption.
  - rewrite (main_after_slots _ _ _ _ Hflags Hbus Hslots) in Hexit.
    cbn [snd] in Hexit.
    destruct (cmd.visit_all h f statuses [] []); discriminate.
Qed.

(** X22.  With both flags given, a bus connection, a slot list in which
    exactly one slot passes the filter, and a host on which every call
    succeeds, [main] does exactly this, in this order: it makes the mount
    point, mounts the device of that slot, opens the source under the
    mount point and the destination, copies, and then, as deferred,
    closes the destination, closes the source and unmounts; it ends with
    status 0. *)
Theorem main_copies_from_the_other_slot
    h f c before slot after device :
  cmd.toFlag f <> "" -> cmd.fromFlag f <> "" ->
  cmd.SystemBus h = inl c ->
  GetSlotStatus (mkInstaller c (Conn_Object c dbusInterface "/"))
  = ((before ++ slot :: after)%list, None) ->
  Forall (fun status => ~ eligible f status) before ->
  Forall (fun status => ~ eligible f status) after ->
  eligible f slot ->
  device_of h slot = Some device ->
  obliging h ->
  cmd.main h f
  = ([cmd.Log cmd.InfoLevel [("device", device)] "Device path for mount";
      cmd.MkdirAll (cmd.mountPointFlag f);
      cmd.Mount device (cmd.mountPointFlag f) "squashfs";
      cmd.Log cmd.InfoLevel
        [("device", device); ("mountPoint", cmd.mountPointFlag f)]
        "Successfully mounted";
      cmd.Open (cmd.mountPointFlag f +:+ cmd.fromFlag f);
      cmd.OpenFile (cmd.toFlag f);
      cmd.Copy (cmd.toFlag f) (cmd.mountPointFlag f +:+ cmd.fromFlag f);
      cmd.Log cmd.InfoLevel
        [("to", cmd.toFlag f); ("from", cmd.fromFlag f);
         ("class", cmd.classFlag f)]
        "Successfully copied";
      cmd.Close (cmd.toFlag f);
      cmd.Close (cmd.mountPointFlag f +:+ cmd.fromFlag f);
      cmd.Unmount (cmd.mountPointFlag f)],
     cmd.Exit 0).
Proof.
  intros Hto Hfrom Hbus Hslots Hbefore Hafter Hslot Hdev Hhost.
  assert (Hflags :
    (String.eqb (cmd.toFlag f) "" || String.eqb (cmd.fromFlag f) "") = false).
  { apply String.eqb_neq in Hto. apply String.eqb_neq in Hfrom.
    rewrite Hto, Hfrom. reflexivity. }
  rewrite (main_after_slots _ _ _ _ Hflags Hbus Hslots).
  rewrite visit_all_app, (visit_all_ineligible _ _ _ _ _ Hbefore).
  cbn [cmd.visit_all].
  rewrite (visit_obliging _ _ _ _ _ _ Hslot Hdev Hhost).
  rewrite (visit_all_ineligible _ _ _ _ _ Hafter).
  reflexivity.
Qed.

(** *** The tool on the two sample slots *)

Lemma rootfs0_not_eligible :
  ~ eligible (cmd.default_flags "/tmp/os-release" "/etc/os-release")
      (mkSlotStatus "rootfs.0" Sample.rootfs0).
Proof.
  intros [_ (s & Hstate & Hbooted)].
  vm_compute in Hstate. injection Hstate as <-.
  apply Hbooted. reflexivity.
Qed.

Lemma rootfs1_eligible :
  eligible (cmd.default_flags "/tmp/os-release" "/etc/os-release")
    (mkSlotStatus "rootfs.1" Sample.rootfs1).
Proof.
  split.
  - exists (Sample.string_variant "rootfs"). split; reflexivity.
  - exists (Sample.string_variant "inactive"). split; [reflexivity|].
    discriminate.
Qed.

Lemma willing_host_obliging bus : obliging (willing_host bus).
Proof.
  repeat split; intros; discriminate.
Qed.

Lemma main_copies_from_the_other_slot_witness :
  let f := cmd.default_flags "/tmp/os-release" "/etc/os-release" in
  cmd.main (willing_host (bus_with Sample.slots_daemon)) f
  = ([cmd.Log cmd.InfoLevel [("device", "/dev/mmcblk0p2")]
        "Device path for mount";
      cmd.MkdirAll "/tmp/rauc-other-slot";
      cmd.Mount "/dev/mmcblk0p2" "/tmp/rauc-other-slot" "squashfs";
      cmd.Log cmd.InfoLevel
        [("device", "/dev/mmcblk0p2"); ("mountPoint", "/tmp/rauc-other-slot")]
        "Successfully mounted";
      cmd.Open "/tmp/rauc-other-slot/etc/os-release";
      cmd.OpenFile "/tmp/os-release";
      cmd.Copy "/tmp/os-release" "/tmp/rauc-other-slot/etc/os-release";
      cmd.Log cmd.InfoLevel
        [("to", "/tmp/os-release"); ("from", "/etc/os-release");
         ("class", "rootfs")]
        "Successfully copied";
      cmd.Close "/tmp/os-release";
      cmd.Close "/tmp/rauc-other-slot/etc/os-release";
      cmd.Unmount "/tmp/rauc-other-slot"],
     cmd.Exit 0).
Proof.
  intros f.
  apply (main_copies_from_the_other_slot
           (willing_host (bus_with Sample.slots_daemon)) f
           (mkConn (fun _ _ => Sample.slots_daemon) (fun _ => None)
              (fun _ => Parked))
           [mkSlotStatus "rootfs.0" Sample.rootfs0]
           (mkSlotStatus "rootfs.1" Sample.rootfs1) []
           "/dev/mmcblk0p2").
  - discriminate.
  - discriminate.
  - reflexivity.
  - reflexivity.
  - constructor; [exact rootfs0_not_eligible | constructor].
  - constructor.
  - exact rootfs1_eligible.
  - reflexivity.
  - apply willing_host_obliging.
Defined.

Lemma main_mounts_only_eligible_slots_witness :
  let f := cmd.default_flags "/tmp/os-release" "/etc/os-release" in
  let h := unwilling_host (bus_with Sample.slots_daemon) in
  exists c statuses,
    cmd.SystemBus h = inl c /\
    GetSlotStatus (mkInstaller c (Conn_Object c dbusInterface "/"))
    = (statuses, None) /\
    "/tmp/rauc-other-slot" = cmd.mountPointFlag f /\
    "squashfs" = "squashfs" /\
    exists status,
      In status statuses /\ eligible f status /\
      device_of h status = Some "/dev/mmcblk0p2".
Proof.
  intros f h.
  apply (main_mounts_only_eligible_slots h f
           "/dev/mmcblk0p2" "/tmp/rauc-other-slot" "squashfs").
  right. right. left. reflexivity.
Defined.

Lemma main_exit_1_touches_nothing_witness :
  let f := cmd.default_flags "/tmp/os-release" "/etc/os-release" in
  let h := willing_host (inr Sample.unreachable) in
  ((cmd.toFlag f = "" \/ cmd.fromFlag f = "") /\
   fst (cmd.main h f) = [cmd.FlagUsage])
  \/
  (exists err,
     cmd.SystemBus h = inr err /\
     fst (cmd.main h f)
     = [cmd.Log cmd.FatalLevel [("error", Error err)] "Cannot initialize"])
  \/
  (exists c cause,
     cmd.SystemBus h = inl c /\
     GetSlotStatus (mkInstaller c (Conn_Object c dbusInterface "/"))
     = ([], Some (fmt_Errorf "RAUC: GetSlotStatus(): " cause)) /\
     fst (cmd.main h f)
     = [cmd.Log cmd.FatalLevel
          [("error", "RAUC: GetSlotStatus(): " +:+ Error cause)]
          "Cannot get slot statuses"]).
Proof.
  intros f h.
  apply (main_exit_1_touches_nothing h f). reflexivity.
Defined.

(** On a host that refuses the mount the tool logs the error, unmounts
    nothing and still exits with status 0. *)
Lemma main_on_unwilling_host :
  cmd.main (unwilling_host (bus_with Sample.slots_daemon))
    (cmd.default_flags "/tmp/os-release" "/etc/os-release")
  = ([cmd.Log cmd.InfoLevel [("device", "/dev/mmcblk0p2")]
        "Device path for mount";
      cmd.MkdirAll "/tmp/rauc-other-slot";
      cmd.Mount "/dev/mmcblk0p2" "/tmp/rauc-other-slot" "squashfs";
      cmd.Log cmd.ErrorLevel
        [("error", "operation not permitted");
         ("device", "/dev/mmcblk0p2");
         ("mountPoint", "/tmp/rauc-other-slot")]
        "Unable to mount"],
     cmd.Exit 0).
Proof. reflexivity. Qed.

(** ** The oldest revision against installer.go *)

Lemma Oldest_awaitCompleted_same_course p iterations :
  forall n,
    same_course p None
      (Oldest.awaitCompleted p (Conn_Signal (conn p)) iterations n)
      (awaitCompleted p (Conn_Signal (conn p)) iterations n).
Proof.
  induction iterations as [|rest IH]; intros n.
  { left. split; reflexivity. }
  simpl. destruct (Conn_Signal (conn p) n) as [signal| |] eqn:Hrecv.
  - destruct (String.eqb (Name signal) (interfaceForMember "Completed"))
      eqn:Hname; [|apply IH].
    apply String.eqb_eq in Hname.
    destruct (Store1 store_int32 (Body signal) 0%Z) as [code [e|]] eqn:Hstore.
    + right. right. exists (DecodeFailed e), (S n).
      repeat split. exists n, signal, code. repeat split; assumption.
    + destruct (code =? 0)%Z eqn:Hcode; cbn [negb].
      * apply Z.eqb_eq in Hcode. subst code.
        right. right. exists Succeeded, (S n).
        repeat split. exists n, signal. repeat split; assumption.
      * unfold Oldest.GetLastError, GetLastError.
        destruct (BusObject_GetProperty (object p) (S n)
                    (interfaceForMember "LastError")) as [v [e|]] eqn:Hread.
        -- right. right. exists (LastErrorUnreadable e), (S n).
           repeat split. exists v. exact Hread.
        -- right. right. exists (DaemonFailure (Variant_String v)), (S n).
           repeat split. exists v. split; [exact Hread | reflexivity].
  - right. right. exists ChannelClosed, (S n).
    repeat split. exists n. split; [reflexivity | exact Hrecv].
  - right. left. exists (S n). split; reflexivity.
Qed.

(** X15.  [Install] of the oldest revision and [Install] of installer.go
    take the same course in every environment: both are still running,
    or both park at the same receive, or both return at the same receive
    for the same cause.  For a failed starting call installer.go puts
    [RAUC: Install(): ] before the message, for a closed channel
    [RAUC: ], for a failed read of [LastError] [RAUC: GetLastError(): ];
    a decode error and the error string of the daemon are the same in
    both, and one returns nil exactly when the other does. *)
Theorem Oldest_Install_same_course p filename iterations :
  same_course p (Err (Install_call p filename))
    (Oldest.Install p filename iterations)
    (Legacy.Install p filename iterations).
Proof.
  unfold Oldest.Install, Legacy.Install.
  fold (Install_call p filename).
  destruct (Err (Install_call p filename)) as [e|].
  - right. right. exists (CallFailed e), 0. repeat split.
  - apply Oldest_awaitCompleted_same_course.
Qed.

(** ** Mounts and unmounts of the tool *)

Lemma mounts_granted_app h a :
  forall done b,
    mounts_granted h done (a ++ b)%list
    = mounts_granted h done a + mounts_granted h (done ++ a)%list b.
Proof.
  induction a as [|e a IH]; intros done b.
  - simpl. rewrite app_nil_r. reflexivity.
  - cbn [app mounts_granted]. rewrite IH, <- app_assoc. cbn [app]. lia.
Qed.

Lemma visit_granted h f status trace defers :
  mounts_granted h [] trace = count is_unmount defers ->
  mounts_granted h [] (flow_trace (cmd.visit h f status trace defers))
  = count is_unmount (flow_defers (cmd.visit h f status trace defers)).
Proof.
  intros Hold.
  unfold cmd.visit; cbv zeta;
  repeat match goal with
         | |- context [match ?x with _ => _ end] => destruct x eqn:?
         end;
    cbn [flow_trace flow_defers]; try exact Hold;
    rewrite ?mounts_granted_app; cbn [app mounts_granted];
    repeat match goal with
           | H : cmd.syscall_Mount _ _ _ _ _ = _ |- _ => rewrite H; clear H
           end;
    unfold count in *; cbn [List.filter length is_unmount]; lia.
Qed.

Lemma visit_all_granted h f statuses :
  forall trace defers,
    mounts_granted h [] trace = count is_unmount defers ->
    mounts_granted h []
      (flow_trace (cmd.visit_all h f statuses trace defers))
    = count is_unmount (flow_defers (cmd.visit_all h f statuses trace defers)).
Proof.
  induction statuses as [|status rest IH]; intros trace defers Hold.
  - exact Hold.
  - simpl. pose proof (visit_granted h f status trace defers Hold) as Hstep.
    destruct (cmd.visit h f status trace defers); try exact Hstep.
    apply IH, Hstep.
Qed.

Lemma opens_granted_app h a :
  forall done b,
    opens_granted h done (a ++ b)%list
    = opens_granted h done a + opens_granted h (done ++ a)%list b.
Proof.
  induction a as [|e a IH]; intros done b.
  - simpl. rewrite app_nil_r. reflexivity.
  - cbn [app opens_granted]. rewrite IH, <- app_assoc. cbn [app]. lia.
Qed.

Lemma visit_opened h f status trace defers :
  opens_granted h [] trace = count is_close defers ->
  opens_granted h [] (flow_trace (cmd.visit h f status trace defers))
  = count is_close (flow_defers (cmd.visit h f status trace defers)).
Proof.
  intros Hold.
  unfold cmd.visit; cbv zeta;
  repeat match goal with
         | |- context [match ?x with _ => _ end] => destruct x eqn:?
         end;
    cbn [flow_trace flow_defers]; try exact Hold;
    rewrite ?opens_granted_app; cbn [app opens_granted];
    repeat match goal with
           | H : cmd.os_Open _ _ _ = _ |- _ => rewrite H; clear H
           | H : cmd.os_OpenFile _ _ _ = _ |- _ => rewrite H; clear H
           end;
    unfold count in *; cbn [List.filter length is_close]; lia.
Qed.

Lemma visit_all_opened h f statuses :
  forall trace defers,
    opens_granted h [] trace = count is_close defers ->
    opens_granted h []
      (flow_trace (cmd.visit_all h f statuses trace defers))
    = count is_close (flow_defers (cmd.visit_all h f statuses trace defers)).
Proof.
  induction statuses as [|status rest IH]; intros trace defers Hold.
  - exact Hold.
  - simpl. pose proof (visit_opened h f status trace defers Hold) as Hstep.
    destruct (cmd.visit h f status trace defers); try exact Hstep.
    apply IH, Hstep.
Qed.

Lemma visit_unmounts h f status trace defers :
  (forall target, In (cmd.Unmount target) defers ->
                  target = cmd.mountPointFlag f) ->
  forall target,
    In (cmd.Unmount target)
      (flow_defers (cmd.visit h f status trace defers)) ->
    target = cmd.mountPointFlag f.
Proof.
  intros Hold target.
  unfold cmd.visit; cbv zeta;
  repeat match goal with
         | |- context [match ?x with _ => _ end] => destruct x eqn:?
         end;
    cbn [flow_defers In]; intros Hin;
    repeat match type of Hin with
           | _ \/ _ => destruct Hin as [Hin|Hin]
           end;
    try discriminate; try (exact (Hold _ Hin));
    injection Hin as <-; reflexivity.
Qed.

Lemma visit_all_unmounts h f statuses :
  forall trace defers,
    (forall target, In (cmd.Unmount target) defers ->
                    target = cmd.mountPointFlag f) ->
    forall target,
      In (cmd.Unmount target)
        (flow_defers (cmd.visit_all h f statuses trace defers)) ->
      target = cmd.mountPointFlag f.
Proof.
  induction statuses as [|status rest IH]; intros trace defers Hold.
  - exact Hold.
  - simpl. pose proof (visit_unmounts h f status trace defers Hold) as Hstep.
    destruct (cmd.visit h f status trace defers); try exact Hstep.
    apply IH, Hstep.
Qed.

(** X19.  Everything [main] does splits into a body without any unmount
    or close and a cleanup made only of unmounts and closes, which runs
    last: no slot is unmounted before every mount has been tried.  The
    cleanup unmounts the mount point of the flags once for every mount
    the host granted, and closes once for every file the host opened; a
    mount the host refused, of which there is at most one, is not
    unmounted. *)
Theorem main_cleans_up_last h f :
  exists body cleanup,
    fst (cmd.main h f) = (body ++ cleanup)%list /\
    count is_cleanup body = 0 /\
    forallb is_cleanup cleanup = true /\
    count is_unmount cleanup = mounts_granted h [] body /\
    count is_close cleanup = opens_granted h [] body /\
    (forall target, In (cmd.Unmount target) cleanup ->
                    target = cmd.mountPointFlag f) /\
    count is_unmount cleanup <= count is_mount body /\
    count is_mount body <= count is_unmount cleanup + 1.
Proof.
  destruct (main_cases h f)
    as [[_ Hmain]|[(err & _ & Hmain)|[(c & cause & _ & _ & Hmain)
       |(c & statuses & Hflags & Hbus & Hslots)]]];
    try (rewrite Hmain; eexists _, []; split;
         [symmetry; apply app_nil_r|]; unfold count; cbn;
         repeat split; try lia; intros ? []).
  rewrite (main_after_slots _ _ _ _ Hflags Hbus Hslots). cbn [fst].
  pose proof (visit_all_balanced h f statuses [] [] balanced_start) as Hbal.
  pose proof (visit_all_granted h f statuses [] [] eq_refl) as Hgranted.
  pose proof (visit_all_opened h f statuses [] [] eq_refl) as Hopened.
  pose proof (visit_all_unmounts h f statuses [] []
                (fun _ (H : In _ []) => match H with end)) as Htarget.
  eexists _, _. split; [reflexivity|].
  destruct (cmd.visit_all h f statuses [] []);
    destruct Hbal as (Hc & Hd & Hle & Hge); cbn [flow_trace flow_defers] in *;
    repeat split; try assumption; lia.
Qed.

(** ** The rendering the string getters return *)

Lemma escape_byte_length c out :
  escape_byte c = Some out -> 1 <= String.length out.
Proof.
  unfold escape_byte.
  repeat match goal with
         | |- context [if ?b then _ else _] => destruct b
         end;
    intros [= <-]; simpl; lia.
Qed.

Lemma escape_length s :
  forall body, escape s = Some body -> String.length s <= String.length body.
Proof.
  induction s as [|c s IH]; intros body Hescape; simpl in Hescape.
  - injection Hescape as <-. simpl. lia.
  - destruct (escape_byte c) as [a|] eqn:Hc; [|discriminate].
    destruct (escape s) as [b|]; [|discriminate].
    injection Hescape as <-. rewrite length_append.
    pose proof (escape_byte_length _ _ Hc). pose proof (IH b eq_refl).
    simpl. lia.
Qed.

Lemma escape_byte_plain c :
  plain_byte c = true -> escape_byte c = Some (String c "").
Proof.
  unfold plain_byte, escape_byte. cbv zeta.
  destruct ((Ascii.N_of_ascii c =? 34)%N || (Ascii.N_of_ascii c =? 92)%N);
    [discriminate|].
  destruct ((32 <=? Ascii.N_of_ascii c)%N && (Ascii.N_of_ascii c <? 127)%N);
    [reflexivity | discriminate].
Qed.

Lemma escape_plain s : plain s = true -> escape s = Some s.
Proof.
  induction s as [|c s IH]; intros Hplain; [reflexivity|].
  simpl in Hplain. apply andb_prop in Hplain as [Hc Hs].
  simpl. rewrite (escape_byte_plain _ Hc), (IH Hs). reflexivity.
Qed.

(** The quoted form is never the string itself: it is longer by the two
    quotes at least. *)
Lemma strconv_Quote_shape s q :
  strconv_Quote s = Some q ->
  q <> s /\
  (exists body, q = cmd.quote +:+ body +:+ cmd.quote) /\
  (plain s = true ->
   q = cmd.quote +:+ s +:+ cmd.quote /\ cmd.stripQuotes q = s).
Proof.
  unfold strconv_Quote.
  destruct (escape s) as [body|] eqn:Hescape; [|discriminate].
  intros [= <-]. split; [|split].
  - intros Heq. apply (f_equal String.length) in Heq.
    rewrite !length_append in Heq.
    pose proof (escape_length _ _ Hescape). simpl in Heq. lia.
  - exists body. reflexivity.
  - intros Hplain. rewrite (escape_plain _ Hplain) in Hescape.
    injection Hescape as <-. split; [reflexivity|].
    unfold cmd.stripQuotes.
    replace (cmd.quote +:+ s +:+ cmd.quote)
      with ((cmd.quote +:+ s) +:+ cmd.quote) by reflexivity.
    rewrite TrimSuffix_append. apply TrimPrefix_append.
Qed.

(** C7.  Each of [GetOperation], [GetLastError], [GetCompatible],
    [GetVariant] and [GetBootSlot] reads its own property.  When the read
    fails it returns the empty string and an error whose message is the
    getter's prefix followed by the message of the read's error; every
    prefix contains the name of its property, and no two getters share a
    prefix.  When the read succeeds it returns nil and what [String()]
    renders for the variant read: for a property that holds a string this
    is the string between double quotes, escaped as [strconv.Quote]
    does, never the string itself; when the string needs no escape,
    [stripQuotes] gives it back. *)
Theorem string_getters_wrap_or_render :
  (forall property context getter,
     In (property, context, getter) string_getters ->
     forall p now v,
       (forall e,
          BusObject_GetProperty (object p) now (interfaceForMember property)
          = (v, Some e) ->
          getter p now = ("", Some (fmt_Errorf context e)) /\
          Error (fmt_Errorf context e) = context +:+ Error e)
       /\
       (BusObject_GetProperty (object p) now (interfaceForMember property)
        = (v, None) ->
        getter p now = (Variant_String v, None) /\
        forall s q,
          Variant_Value v = VString s ->
          rendered v ->
          strconv_Quote s = Some q ->
          getter p now = (q, None) /\
          q <> s /\
          (exists body, q = cmd.quote +:+ body +:+ cmd.quote) /\
          (plain s = true ->
           q = cmd.quote +:+ s +:+ cmd.quote /\ cmd.stripQuotes q = s)))
  /\
  forallb (fun '(property, context, _) => occurs_in property context)
    string_getters = true
  /\
  NoDup (map (fun '(_, context, _) => context) string_getters).
Proof.
  split; [|split].
  - intros property context getter Hin p now v.
    assert (Hboth :
      (forall e,
         BusObject_GetProperty (object p) now (interfaceForMember property)
         = (v, Some e) ->
         getter p now = ("", Some (fmt_Errorf context e))) /\
      (BusObject_GetProperty (object p) now (interfaceForMember property)
       = (v, None) ->
       getter p now = (Variant_String v, None))).
    { simpl in Hin.
      destruct Hin as [H|[H|[H|[H|[H|[]]]]]]; injection H as <- <- <-;
        (split; [intros e Hread | intros Hread]);
        [ unfold GetOperation | unfold GetOperation
        | unfold GetLastError | unfold GetLastError
        | unfold GetCompatible | unfold GetCompatible
        | unfold GetVariant | unfold GetVariant
        | unfold GetBootSlot | unfold GetBootSlot ];
        rewrite Hread; reflexivity. }
    destruct Hboth as [Hfail Hok]. split.
    + intros e Hread. split; [exact (Hfail e Hread) | reflexivity].
    + intros Hread. split; [exact (Hok Hread)|].
      intros s q Hvalue Hrendered Hquote.
      rewrite (Hok Hread), (Hrendered s q Hvalue Hquote).
      split; [reflexivity|]. exact (strconv_Quote_shape s q Hquote).
  - reflexivity.
  - apply (bool_decide_unpack _). vm_compute. exact I.
Qed.

(** The sample variant for idle reads as the library renders it. *)
Lemma rendered_idle : rendered (Sample.string_variant "idle").
Proof.
  intros s q Hvalue Hquote. injection Hvalue as <-.
  vm_compute in Hquote. injection Hquote as <-. reflexivity.
Qed.

Lemma string_getters_wrap_or_render_witness :
  GetBootSlot
    (Sample.installer Sample.absent_daemon None (fun _ => Parked)) 0
  = ("", Some (fmt_Errorf "RAUC: GetProperty(BootSlot): " Sample.unreachable))
  /\
  (GetOperation
     (Sample.installer Sample.failing_daemon None (fun _ => Parked)) 0
   = (Sample.quoted "idle", None) /\
   Sample.quoted "idle" <> "idle" /\
   (exists body, Sample.quoted "idle" = cmd.quote +:+ body +:+ cmd.quote) /\
   (plain "idle" = true ->
    Sample.quoted "idle" = cmd.quote +:+ "idle" +:+ cmd.quote /\
    cmd.stripQuotes (Sample.quoted "idle") = "idle")).
Proof.
  destruct string_getters_wrap_or_render as [Hgetters _].
  split.
  - apply (Hgetters "BootSlot" "RAUC: GetProperty(BootSlot): " GetBootSlot
             ltac:(simpl; tauto) _ 0 Variant_zero).
    reflexivity.
  - destruct (Hgetters "Operation" "RAUC: GetOperation(): " GetOperation
                ltac:(simpl; tauto)
                (Sample.installer Sample.failing_daemon None (fun _ => Parked))
                0 (Sample.string_variant "idle")) as [_ Hok].
    destruct (Hok eq_refl) as [_ Hrender].
    apply (Hrender "idle" (Sample.quoted "idle") eq_refl rendered_idle).
    reflexivity.
Defined.

(** On a daemon whose [Operation] property holds the string idle,
    [GetOperation] does not return idle: it returns idle between double
    quotes. *)
Lemma GetOperation_yields_rendering_not_value :
  ~ yields_string_value GetOperation "Operation"
      (Sample.installer Sample.failing_daemon None (fun _ => Parked)) 0.
Proof.
  intros Hclaim.
  specialize (Hclaim (Sample.string_variant "idle") "idle"
                eq_refl rendered_idle eq_refl).
  vm_compute in Hclaim. discriminate Hclaim.
Qed.
